(** * Prior-authorization intake form: validation engine and submission lifecycle

    A shallow embedding of [frontend/components/PriorAuthForm.tsx]: the field
    validator [validateField], the event handlers of the form component
    ([handleChange], [handleBlur], [handleFileChange], [removeFile],
    [isFormValid], [handleSubmit]) and the React state they read and update;
    with them the class-name helper [cn] and the validator of
    [ClaimSubmissionForm.tsx].

    Conventions.
    - A JavaScript string is a [string]; each [ascii] stands for one UTF-16
      code unit, so the development covers strings over code units 0..255.
    - A JavaScript object used with computed keys ([formData], [errors]) is a
      [gmap] from property names to values; reading an absent property gives
      [VUndefined].
    - A handler of a React component reads the state of the render it was
      created in and queues state updates; it is embedded as a function from
      that state to the list of effects it performs, and [commit] applies the
      queued updates in order. *)

From Stdlib Require Import ZArith Ascii String.
From stdpp Require Import gmap strings list fin_maps.

Local Open Scope string_scope.

(** ** The JavaScript values and built-ins the component relies on *)

Module File.
(** The metadata of a DOM [File] read by the form: [file.name], [file.size]. *)
Record t := mk { name : string; size : N }.
End File.

Module Js.

Inductive JsValue :=
| VStr (s : string)
| VBool (b : bool)
| VFile (f : File.t)
| VNull
| VUndefined.

(** ToBoolean: what [!value] and [a && b] test. *)
Definition truthy (v : JsValue) : bool :=
  match v with
  | VStr s => negb (String.eqb s "")
  | VBool b => b
  | VFile _ => true
  | VNull => false
  | VUndefined => false
  end.

(** ToString, applied by [RegExp.prototype.test] and by [new Date] to an
    object argument. *)
Definition ToString (v : JsValue) : string :=
  match v with
  | VStr s => s
  | VBool true => "true"
  | VBool false => "false"
  | VFile _ => "[object File]"
  | VNull => "null"
  | VUndefined => "undefined"
  end.

(** [value.length]: a number for a string, [undefined] ([None]) for a
    boolean or a File. *)
Definition length (v : JsValue) : option nat :=
  match v with
  | VStr s => Some (String.length s)
  | _ => None
  end.

(** [x > n] and [x < n] where [x] may be [undefined]: comparing with NaN is
    false. *)
Definition gt (x : option nat) (n : nat) : bool :=
  match x with Some k => (n <? k)%nat | None => false end.

Definition lt (x : option nat) (n : nat) : bool :=
  match x with Some k => (k <? n)%nat | None => false end.

(** *** Character classes and the two regular expressions *)

Definition code (c : ascii) : N := N_of_ascii c.

Definition between (lo hi : N) (c : ascii) : bool :=
  ((lo <=? code c) && (code c <=? hi))%N.

(** [\d] *)
Definition isDigit (c : ascii) : bool := between 48 57 c.

(** [[0-9a-fA-F-]] *)
Definition isHexOrHyphen (c : ascii) : bool :=
  isDigit c || between 97 102 c || between 65 70 c || (code c =? 45)%N.

(** [/^[0-9a-fA-F-]{36}$/.test(s)] *)
Definition uuid_re_test (s : string) : bool :=
  (String.length s =? 36)%nat && forallb isHexOrHyphen (list_ascii_of_string s).

(** [/^\d{10}$/.test(s)] *)
Definition npi_re_test (s : string) : bool :=
  (String.length s =? 10)%nat && forallb isDigit (list_ascii_of_string s).

(** *** [String.prototype.toLowerCase], [split] and [Array.prototype.pop] *)

(** On code units 0..255 [toLowerCase] maps each unit on its own: A..Z and
    the upper-case letters of 192..222 move up by 32. (Beyond that range
    the built-in also looks at the neighbours of a unit; such strings are
    outside this development.) *)
Definition toLowerCase_char (c : ascii) : ascii :=
  if between 65 90 c
     || (between 192 222 c && negb (code c =? 215)%N)
  then ascii_of_N (code c + 32)
  else c.

Fixpoint toLowerCase (s : string) : string :=
  match s with
  | EmptyString => EmptyString
  | String c rest => String (toLowerCase_char c) (toLowerCase rest)
  end.

(** [s.split(sep)] for a one-character separator: never the empty array. *)
Fixpoint split (sep : ascii) (s : string) : list string :=
  match s with
  | EmptyString => [EmptyString]
  | String c rest =>
      if Ascii.eqb c sep then EmptyString :: split sep rest
      else match split sep rest with
           | seg :: segs => String c seg :: segs
           | [] => [String c EmptyString]
           end
  end.

(** [s.includes(c)] for a one-character [c]. *)
Fixpoint includes (c : ascii) (s : string) : bool :=
  match s with
  | EmptyString => false
  | String c' rest => Ascii.eqb c' c || includes c rest
  end.

(** [arr.pop()]: the last element, [undefined] for the empty array. *)
Definition pop (arr : list string) : option string := last arr.

(** *** Dates

    [new Date(s)] parses [s] with [Date.parse]. ECMAScript fixes the result
    for its date-time string format; the date-only forms [YYYY],
    [YYYY-MM] and [YYYY-MM-DD] (the form an [<input type="date">] delivers)
    denote midnight UTC of that day. What any other string parses to is
    left to the host, and is taken here as the parameter [hostParse]. A
    time value is a number of milliseconds since the epoch, [None] is NaN
    (an invalid date). *)

Definition digit (c : ascii) : option Z :=
  if isDigit c then Some (Z.of_N (code c) - 48)%Z else None.

Definition digits2 (a b : ascii) : option Z :=
  x ← digit a; y ← digit b; Some (10 * x + y)%Z.

Definition digits4 (a b c d : ascii) : option Z :=
  x ← digits2 a b; y ← digits2 c d; Some (100 * x + y)%Z.

Definition InLeapYear (y : Z) : bool :=
  ((y mod 4 =? 0) && negb (y mod 100 =? 0) || (y mod 400 =? 0))%Z.

Definition DaysInYear (y : Z) : Z := if InLeapYear y then 366 else 365.

(** The day number of the first day of year [y]. *)
Definition DayFromYear (y : Z) : Z :=
  (365 * (y - 1970) + (y - 1969) / 4 - (y - 1901) / 100 + (y - 1601) / 400)%Z.

Definition DaysInMonth (y m : Z) : Z :=
  (if m =? 2 then (if InLeapYear y then 29 else 28)
   else if (m =? 4) || (m =? 6) || (m =? 9) || (m =? 11) then 30
   else 31)%Z.

(** The number of days of year [y] before the first day of month [m]
    (1..12). *)
Definition DayWithinYear (y m : Z) : Z :=
  (let leap := if InLeapYear y then 1 else 0 in
   if m <=? 1 then 0
   else if m =? 2 then 31
   else if m =? 3 then 59 + leap
   else if m =? 4 then 90 + leap
   else if m =? 5 then 120 + leap
   else if m =? 6 then 151 + leap
   else if m =? 7 then 181 + leap
   else if m =? 8 then 212 + leap
   else if m =? 9 then 243 + leap
   else if m =? 10 then 273 + leap
   else if m =? 11 then 304 + leap
   else 334 + leap)%Z.

(** MakeDay for year [y], month [m] (1..12) and day of month [d]. *)
Definition MakeDay (y m d : Z) : Z :=
  (DayFromYear y + DayWithinYear y m + d - 1)%Z.

Definition msPerDay : Z := 86400000.

(** A calendar date: year, month (1..12), day of the month. *)
Definition civil : Type := Z * Z * Z.

Definition check_civil (y m d : Z) : option civil :=
  (if (1 <=? m) && (m <=? 12) && (1 <=? d) && (d <=? DaysInMonth y m)
   then Some (y, m, d) else None)%Z.

(** The date-only forms of the ECMAScript date-time string format. *)
Definition parseDateOnly (s : string) : option civil :=
  match list_ascii_of_string s with
  | [y1; y2; y3; y4] =>
      y ← digits4 y1 y2 y3 y4; check_civil y 1 1
  | [y1; y2; y3; y4; h1; m1; m2] =>
      if Ascii.eqb h1 "-" then
        y ← digits4 y1 y2 y3 y4; m ← digits2 m1 m2; check_civil y m 1
      else None
  | [y1; y2; y3; y4; h1; m1; m2; h2; d1; d2] =>
      if Ascii.eqb h1 "-" && Ascii.eqb h2 "-" then
        y ← digits4 y1 y2 y3 y4; m ← digits2 m1 m2; d ← digits2 d1 d2;
        check_civil y m d
      else None
  | _ => None
  end.

Definition timeOf (c : civil) : Z :=
  let '(y, m, d) := c in (MakeDay y m d * msPerDay)%Z.

(** Lexicographic order on calendar dates. *)
Definition civil_ltb (a b : civil) : bool :=
  (let '(y, m, d) := a in
   let '(y', m', d') := b in
   (y <? y') || ((y =? y') && ((m <? m') || ((m =? m') && (d <? d')))))%Z.

(** A calendar date that exists: month 1..12, day within the month. *)
Definition valid_civil (c : civil) : Prop :=
  let '(y, m, d) := c in (1 <= m <= 12 /\ 1 <= d <= DaysInMonth y m)%Z.

Section Date.
Variable hostParse : string → option Z.

(** [Date.parse(s)] *)
Definition Date_parse (s : string) : option Z :=
  match parseDateOnly s with
  | Some c => Some (timeOf c)
  | None => hostParse s
  end.

(** The time value of [new Date(v)]: a string is parsed, a File is an
    object whose primitive value is a string, anything else is converted
    to a number. *)
Definition Date (v : JsValue) : option Z :=
  match v with
  | VStr s => Date_parse s
  | VFile _ => Date_parse (ToString v)
  | VBool b => Some (if b then 1 else 0)%Z
  | VNull => Some 0%Z
  | VUndefined => None
  end.
End Date.

(** [a < b] on two Date objects compares their time values; a comparison
    with NaN is false. *)
Definition Date_lt (a b : option Z) : bool :=
  match a, b with
  | Some x, Some y => (x <? y)%Z
  | _, _ => false
  end.

End Js.

(** ** The form component *)

Module PriorAuthForm.
Import Js.

(** [formData] and [errors] are objects read and written under computed
    keys. *)
Abbreviation FormData := (gmap string JsValue).
Abbreviation FormErrors := (gmap string string).

(** Property access [obj.key] / [obj[key]]. *)
Definition get (obj : FormData) (key : string) : JsValue :=
  default VUndefined (obj !! key).

(** [Object.keys(obj)] *)
Definition keys (obj : FormData) : list string := (map_to_list obj).*1.

Inductive ToastType := success | error.

Record Toast := mkToast { message : string; type : ToastType }.

(** The [e.target] of a change or blur event, as the handlers destructure
    it. *)
Record Target := mkTarget {
  name : string;
  value : string;
  input_type : string;
  checked : bool
}.

Definition PROCEDURE_CODES : list (string * string) :=
  [ ("", "Select a procedure code");
    ("A876", "A876 - Specialized Consultation");
    ("B901", "B901 - Advanced Imaging");
    ("C102", "C102 - Therapeutic Procedure");
    ("D203", "D203 - Diagnostic Test") ].

(** The state of one render: the five [useState] cells. *)
Record State := mkState {
  formData : FormData;
  errors : FormErrors;
  isSubmitting : bool;
  toast : option Toast;
  isUploading : bool
}.

(** [useState] initial values. *)
Definition initialFormData : FormData :=
  <["patientId" := VStr ""]> (
  <["dob" := VStr ""]> (
  <["physicianName" := VStr ""]> (
  <["npiNumber" := VStr ""]> (
  <["procedureCode" := VStr ""]> (
  <["startDate" := VStr ""]> (
  <["endDate" := VStr ""]> (
  <["hasNotes" := VBool false]> (
  <["uploadedFile" := VNull]> ∅)))))))).

Definition initialState : State :=
  {| formData := initialFormData;
     errors := ∅;
     isSubmitting := false;
     toast := None;
     isUploading := false |}.

(** What a handler does: the state setters it calls, and the three effects
    outside React state. *)
Inductive Effect :=
| setFormData (f : FormData → FormData)
| setErrors (f : FormErrors → FormErrors)
| setIsSubmitting (b : bool)
| setToast (t : option Toast)
| clearFileInput      (* fileInputRef.current.value = '' *)
| preventDefault      (* e.preventDefault() *)
| apiCall.            (* the awaited, simulated POST /api/v1/claims/prior_auth *)

Definition applyEffect (st : State) (e : Effect) : State :=
  match e with
  | setFormData f =>
      {| formData := f (formData st); errors := errors st;
         isSubmitting := isSubmitting st; toast := toast st;
         isUploading := isUploading st |}
  | setErrors f =>
      {| formData := formData st; errors := f (errors st);
         isSubmitting := isSubmitting st; toast := toast st;
         isUploading := isUploading st |}
  | setIsSubmitting b =>
      {| formData := formData st; errors := errors st;
         isSubmitting := b; toast := toast st;
         isUploading := isUploading st |}
  | setToast t =>
      {| formData := formData st; errors := errors st;
         isSubmitting := isSubmitting st; toast := t;
         isUploading := isUploading st |}
  | clearFileInput | preventDefault | apiCall => st
  end.

(** The state of the next render. *)
Definition commit (st : State) (effs : list Effect) : State :=
  foldl applyEffect st effs.

(** The notifications a handler emits: its [setToast] calls with a toast. *)
Definition notifications (effs : list Effect) : list Toast :=
  omap (λ e, match e with setToast (Some t) => Some t | _ => None end) effs.

(** How often a handler invokes the submit capability. *)
Definition isApiCall (e : Effect) : bool :=
  match e with apiCall => true | _ => false end.

Definition apiCalls (effs : list Effect) : nat :=
  List.length (List.filter isApiCall effs).

Definition dquote : string := String "034"%char EmptyString.

Section Handlers.
(** The host's parser for strings outside the date-only format. *)
Variable hostParse : string → option Z.

(** The state of the render the handlers were created in. *)
Variable st : State.

Definition validateField (name : string) (value : JsValue) : string :=
  if String.eqb name "patientId" then
    if negb (truthy value) then "Patient ID is required"
    else if negb (uuid_re_test (ToString value)) && gt (length value) 0
    then "Invalid UUID format (e.g., 123e4567-e89b-12d3-a456-426614174000)"
    else ""
  else if String.eqb name "dob" then
    if negb (truthy value) then "Date of Birth is required" else ""
  else if String.eqb name "physicianName" then
    if negb (truthy value) then "Physician Name is required"
    else if lt (length value) 2 then "Name must be at least 2 characters"
    else ""
  else if String.eqb name "npiNumber" then
    if negb (truthy value) then "NPI Number is required"
    else if negb (npi_re_test (ToString value))
    then "NPI must be exactly 10 digits"
    else ""
  else if String.eqb name "procedureCode" then
    if negb (truthy value) then "Procedure Code is required" else ""
  else if String.eqb name "startDate" then
    if negb (truthy value) then "Start Date is required" else ""
  else if String.eqb name "endDate" then
    if negb (truthy value) then "End Date is required"
    else if truthy (get (formData st) "startDate")
            && Date_lt (Date hostParse value)
                       (Date hostParse (get (formData st) "startDate"))
    then "End Date cannot be before Start Date"
    else ""
  else "".

Definition handleChange (target : Target) : list Effect :=
  let newValue :=
    if String.eqb (input_type target) "checkbox"
    then VBool (checked target) else VStr (value target) in
  setFormData (λ prev, <[name target := newValue]> prev)
  :: (if negb (String.eqb (name target) "hasNotes") then
        let error := validateField (name target) newValue in
        [setErrors (λ prev, <[name target := error]> prev)]
      else []).

Definition handleBlur (target : Target) : list Effect :=
  let error := validateField (name target) (VStr (value target)) in
  [setErrors (λ prev, <[name target := error]> prev)].

Definition allowedTypes : list string := [".pdf"; ".doc"; ".docx"].

(** ['.' + file.name.split('.').pop()?.toLowerCase()] *)
Definition fileExt (file : File.t) : string :=
  "." +:+ match pop (split "." (File.name file)) with
          | Some seg => toLowerCase seg
          | None => "undefined"
          end.

Definition maxSize : N := 10 * 1024 * 1024.

(** [file] is [e.target.files?.[0]]. *)
Definition handleFileChange (file : option File.t) : list Effect :=
  match file with
  | None => []
  | Some file =>
      if negb (bool_decide (fileExt file ∈ allowedTypes)) then
        [setToast (Some {| message := "Invalid file type. Only PDF, DOC, and DOCX files are allowed.";
                           type := error |})]
      else if (maxSize <? File.size file)%N then
        [setToast (Some {| message := "File too large. Maximum size is 10MB.";
                           type := error |})]
      else
        [setFormData (λ prev, <["hasNotes" := VBool true]>
                                (<["uploadedFile" := VFile file]> prev));
         setToast (Some {| message := "File " +:+ dquote +:+ File.name file
                                      +:+ dquote +:+ " ready to upload.";
                           type := success |})]
  end.

Definition removeFile : list Effect :=
  [setFormData (λ prev, <["hasNotes" := VBool false]>
                          (<["uploadedFile" := VNull]> prev));
   clearFileInput].

(** The body of the [forEach] over [Object.keys(formData)]; the
    accumulator is [(newErrors, isValid)]. *)
Definition forEach_key (acc : FormErrors * bool) (key : string)
  : FormErrors * bool :=
  if negb (String.eqb key "hasNotes") then
    let error := validateField key (get (formData st) key) in
    if truthy (VStr error) then (<[key := error]> acc.1, false) else acc
  else acc.

(** [if (!formData.key) { newErrors.key = msg; isValid = false; }] *)
Definition required (key msg : string) (acc : FormErrors * bool)
  : FormErrors * bool :=
  if negb (truthy (get (formData st) key))
  then (<[key := msg]> acc.1, false) else acc.

(** [(newErrors, isValid)] as [isFormValid] computes them. *)
Definition checkForm : FormErrors * bool :=
  let acc := foldl forEach_key (∅, true) (keys (formData st)) in
  let acc := required "patientId" "Patient ID is required" acc in
  let acc := required "dob" "Date of Birth is required" acc in
  let acc := required "physicianName" "Physician Name is required" acc in
  let acc := required "npiNumber" "NPI Number is required" acc in
  let acc := required "procedureCode" "Procedure Code is required" acc in
  let acc := required "startDate" "Start Date is required" acc in
  let acc := required "endDate" "End Date is required" acc in
  acc.

(** The effects of [isFormValid()] and its result. *)
Definition isFormValid : list Effect * bool :=
  let '(newErrors, isValid) := checkForm in
  ([setErrors (λ _, newErrors)], isValid).

(** [handleSubmit] up to its [await]. *)
Definition handleSubmit : list Effect :=
  let '(effs, isValid) := isFormValid in
  preventDefault :: effs ++
  (if negb isValid then
     [setToast (Some {| message := "Please fix the validation errors before submitting.";
                        type := error |})]
   else
     [setIsSubmitting true; setToast None; apiCall]).

(** The submit button is rendered with [disabled={isSubmitting}]. *)
Definition submitDisabled : bool := isSubmitting st.

(** A submission of the form through its submit button: a disabled button
    dispatches no submit event. *)
Definition submit : list Effect :=
  if submitDisabled then [] else handleSubmit.
End Handlers.

(** [handleSubmit] after its [await]: the [try] body when the promise is
    fulfilled, the [catch] block when it is rejected. *)
Definition handleSubmit_resume (fulfilled : bool) : list Effect :=
  if fulfilled then
    [setIsSubmitting false;
     setToast (Some {| message := "Prior Authorization Request submitted successfully.";
                       type := success |})]
  else
    [setIsSubmitting false;
     setToast (Some {| message := "An error occurred while submitting the request.";
                       type := error |})].

(** The events of the component. [onSettled] is the completion of an
    awaited call; the event sequences considered below do not record which
    calls are pending, so they include every interleaving of completions
    with user events. *)
Inductive Event :=
| onChange (target : Target)
| onBlur (target : Target)
| onFileChange (file : option File.t)
| onRemoveFile
| onSubmit
| onSettled (fulfilled : bool)
| onToastClose.

Definition handler (hostParse : string → option Z) (st : State) (ev : Event)
  : list Effect :=
  match ev with
  | onChange target => handleChange hostParse st target
  | onBlur target => handleBlur hostParse st target
  | onFileChange file => handleFileChange file
  | onRemoveFile => removeFile
  | onSubmit => submit hostParse st
  | onSettled fulfilled => handleSubmit_resume fulfilled
  | onToastClose => [setToast None]
  end.

(** One event: the handler runs against the current render, its updates are
    committed, the component renders again. *)
Definition step (hostParse : string → option Z) (st : State) (ev : Event)
  : State :=
  commit st (handler hostParse st ev).

Definition run (hostParse : string → option Z) (st : State)
    (evs : list Event) : State :=
  foldl (step hostParse) st evs.

End PriorAuthForm.

(** ** Vocabulary of the statements *)

Import Js PriorAuthForm.

(** A host whose parser rejects every string outside the date-only format;
    used where a statement is evaluated on concrete input. *)
Definition noHostParse : string → option Z := λ _, None.

Definition textInput (name value : string) : Target :=
  {| name := name; value := value; input_type := "text"; checked := false |}.

Definition dateInput (name value : string) : Target :=
  {| name := name; value := value; input_type := "date"; checked := false |}.

Definition selectInput (name value : string) : Target :=
  {| name := name; value := value; input_type := "select-one"; checked := false |}.

Definition checkbox (name : string) (checked : bool) : Target :=
  {| name := name; value := "on"; input_type := "checkbox"; checked := checked |}.

(** The initial form with a start date entered. *)
Definition withStart (start_ : string) : State :=
  {| formData := <["startDate" := VStr start_]> initialFormData;
     errors := ∅; isSubmitting := false; toast := None; isUploading := false |}.

(** The form filled in with acceptable values. *)
Definition filledForm : State :=
  run noHostParse initialState
    [ onChange (textInput "patientId" "123e4567-e89b-12d3-a456-426614174000");
      onChange (dateInput "dob" "1980-05-17");
      onChange (textInput "physicianName" "Dr. Jane Doe");
      onChange (textInput "npiNumber" "1234567890");
      onChange (selectInput "procedureCode" "A876");
      onChange (dateInput "startDate" "2024-01-01");
      onChange (dateInput "endDate" "2024-01-05") ].

(** What accepting [file] does. *)
Definition acceptance (file : File.t) : list Effect :=
  [ setFormData (λ prev, <["hasNotes" := VBool true]>
                           (<["uploadedFile" := VFile file]> prev));
    setToast (Some {| message := "File " +:+ dquote +:+ File.name file
                                 +:+ dquote +:+ " ready to upload.";
                      type := success |}) ].

(** What rejecting a file does. *)
Definition rejection (msg : string) : list Effect :=
  [ setToast (Some {| message := msg; type := error |}) ].

Definition typeMessage : string :=
  "Invalid file type. Only PDF, DOC, and DOCX files are allowed.".

Definition sizeMessage : string := "File too large. Maximum size is 10MB.".

(** The validator's verdict on the current value of field [k]. *)
Definition fieldError (hostParse : string → option Z) (st : State)
    (k : string) : string :=
  validateField hostParse st k (get (formData st) k).

(** Each explicit required-field check repeats what the validator says of
    a missing value. *)
Definition requiredChecks : list (string * string) :=
  [ ("patientId", "Patient ID is required");
    ("dob", "Date of Birth is required");
    ("physicianName", "Physician Name is required");
    ("npiNumber", "NPI Number is required");
    ("procedureCode", "Procedure Code is required");
    ("startDate", "Start Date is required");
    ("endDate", "End Date is required") ].

(** [hasNotes] and [uploadedFile] as the attachment handlers leave them. *)
Definition attachment_inv (fd : FormData) : Prop :=
  (fd !! "hasNotes" = Some (VBool false) /\ fd !! "uploadedFile" = Some VNull)
  \/ (fd !! "hasNotes" = Some (VBool true)
      /\ exists file, fd !! "uploadedFile" = Some (VFile file)).

(** An event other than a change of an input named [hasNotes] or
    [uploadedFile]. The form renders no such input: its inputs are named
    patientId, dob, physicianName, npiNumber, procedureCode, startDate and
    endDate. *)
Definition sparesAttachment (ev : Event) : bool :=
  match ev with
  | onChange target =>
      negb (String.eqb (name target) "hasNotes")
      && negb (String.eqb (name target) "uploadedFile")
  | _ => true
  end.

(** ** The rest of the two components *)

(** [cn(...classes)], the class-name helper of both files:
    [classes.filter(Boolean).join(' ')]. *)
Definition cn (classes : list JsValue) : string :=
  String.concat " " (ToString <$> List.filter truthy classes).

Module ClaimSubmissionForm.

Section Validator.
Variable hostParse : string → option Z.

(** The [formData] of the render. *)
Variable formData : gmap string JsValue.

(** [validateField] of [ClaimSubmissionForm.tsx]. *)
Definition validateField (name : string) (value : JsValue) : string :=
  if String.eqb name "patientId" then
    if negb (truthy value) then "Patient ID is required" else ""
  else if String.eqb name "dob" then
    if negb (truthy value) then "Date of Birth is required" else ""
  else if String.eqb name "physicianName" then
    if negb (truthy value) then "Physician Name is required" else ""
  else if String.eqb name "npiNumber" then
    if negb (truthy value) then "NPI Number is required"
    else if negb (npi_re_test (ToString value))
    then "NPI must be exactly 10 digits"
    else ""
  else if String.eqb name "procedureCode" then
    if negb (truthy value) then "Procedure Code is required" else ""
  else if String.eqb name "startDate" then
    if negb (truthy value) then "Start Date is required" else ""
  else if String.eqb name "endDate" then
    if negb (truthy value) then "End Date is required"
    else if truthy (get formData "startDate")
            && Date_lt (Date hostParse value)
                       (Date hostParse (get formData "startDate"))
    then "End Date cannot be before Start Date"
    else ""
  else "".
End Validator.

End ClaimSubmissionForm.

(** The value a change event carries, as [handleChange] computes it. *)
Definition newValue (target : Target) : JsValue :=
  if String.eqb (input_type target) "checkbox"
  then VBool (checked target) else VStr (value target).

(** The names of the inputs of the form. *)
Definition fieldNames : list string :=
  [ "patientId"; "dob"; "physicianName"; "npiNumber"; "procedureCode";
    "startDate"; "endDate" ].

(** An event the rendered form can deliver: a change comes from one of its
    seven inputs, none of which is a checkbox. *)
Definition fromRenderedInput (ev : Event) : bool :=
  match ev with
  | onChange target =>
      bool_decide (name target ∈ fieldNames)
      && negb (String.eqb (input_type target) "checkbox")
  | _ => true
  end.

(** The toasts of a completed submission. *)
Definition submittedToast : Toast :=
  {| message := "Prior Authorization Request submitted successfully.";
     type := success |}.

Definition failedToast : Toast :=
  {| message := "An error occurred while submitting the request.";
     type := error |}.

(** The types the [FormData] interface declares. *)
Definition wellTyped (fd : FormData) : Prop :=
  (forall k, k ∈ fieldNames -> exists s, fd !! k = Some (VStr s))
  /\ (exists b, fd !! "hasNotes" = Some (VBool b))
  /\ (fd !! "uploadedFile" = Some VNull
      \/ exists file, fd !! "uploadedFile" = Some (VFile file)).

(** Every entry of an accumulator of [isFormValid] is the non-empty verdict
    on its key. *)
Definition entries_sound (hostParse : string → option Z) (st : State)
    (acc : FormErrors * bool) : Prop :=
  forall k e, acc.1 !! k = Some e -> e = fieldError hostParse st k /\ e ≠ "".

(** ** Facts about the built-ins *)

Module JsFacts.
Import Js.

Local Open Scope Z_scope.

Lemma DayFromYear_succ y : DayFromYear (y + 1) = DayFromYear y + DaysInYear y.
Proof.
  unfold DayFromYear, DaysInYear, InLeapYear.
  replace (y + 1 - 1970) with (y - 1970 + 1) by lia.
  replace (y + 1 - 1969) with (y - 1968) by lia.
  replace (y + 1 - 1901) with (y - 1900) by lia.
  replace (y + 1 - 1601) with (y - 1600) by lia.
  destruct (Z.eqb_spec (y mod 4) 0), (Z.eqb_spec (y mod 100) 0),
    (Z.eqb_spec (y mod 400) 0); cbn [andb orb negb];
    Z.div_mod_to_equations; lia.
Qed.

Lemma DayFromYear_le y y' : y <= y' -> DayFromYear y <= DayFromYear y'.
Proof.
  intros H. unfold DayFromYear. Z.div_mod_to_equations. lia.
Qed.

Lemma DayFromYear_next y y' :
  y < y' -> DayFromYear y + DaysInYear y <= DayFromYear y'.
Proof.
  intros H. rewrite <- DayFromYear_succ. apply DayFromYear_le. lia.
Qed.

Ltac month_cases m :=
  assert (m = 1 \/ m = 2 \/ m = 3 \/ m = 4 \/ m = 5 \/ m = 6 \/ m = 7
          \/ m = 8 \/ m = 9 \/ m = 10 \/ m = 11 \/ m = 12) as Hm by lia;
  repeat (destruct Hm as [Hm | Hm]); subst m.

Lemma day_in_year y m d :
  valid_civil (y, m, d) -> 0 <= DayWithinYear y m + d - 1 < DaysInYear y.
Proof.
  intros [Hmo Hd]. revert Hd.
  unfold DayWithinYear, DaysInMonth, DaysInYear.
  month_cases m; destruct (InLeapYear y); cbn; lia.
Qed.

Lemma month_next y m m' d :
  valid_civil (y, m, d) -> m < m' <= 12 ->
  DayWithinYear y m + d - 1 < DayWithinYear y m'.
Proof.
  intros [Hmo Hd] Hlt. revert Hd.
  unfold DayWithinYear, DaysInMonth.
  month_cases m; destruct (InLeapYear y); cbn;
    intros Hd; month_cases m'; cbn; lia.
Qed.

(** The day number is strictly monotone in the calendar date. *)
Lemma MakeDay_lt (a b : civil) :
  valid_civil a -> valid_civil b -> civil_ltb a b = true ->
  timeOf a < timeOf b.
Proof.
  destruct a as [[y m] d], b as [[y' m'] d'].
  intros Ha Hb Hlt. unfold timeOf, MakeDay, msPerDay.
  pose proof (day_in_year _ _ _ Ha) as Ia.
  pose proof (day_in_year _ _ _ Hb) as Ib.
  unfold civil_ltb in Hlt.
  destruct (Z.ltb_spec y y') as [Hy | Hy]; cbn [orb] in Hlt.
  - pose proof (DayFromYear_next _ _ Hy). lia.
  - destruct (Z.eqb_spec y y') as [-> | ?]; cbn [andb] in Hlt; [|discriminate].
    destruct (Z.ltb_spec m m') as [Hmm | Hmm]; cbn [orb] in Hlt.
    + destruct Hb as [Hm' Hd'].
      assert (m < m' <= 12) as Hr by lia.
      pose proof (month_next _ _ _ _ Ha Hr). lia.
    + destruct (Z.eqb_spec m m') as [-> | ?]; cbn [andb] in Hlt; [|discriminate].
      apply Z.ltb_lt in Hlt. lia.
Qed.

Lemma civil_ltb_total (a b : civil) :
  civil_ltb a b = false -> a = b \/ civil_ltb b a = true.
Proof.
  destruct a as [[y m] d], b as [[y' m'] d']. unfold civil_ltb.
  destruct (Z.ltb_spec y y'), (Z.eqb_spec y y'), (Z.ltb_spec m m'),
    (Z.eqb_spec m m'), (Z.ltb_spec d d'); cbn; try discriminate; try lia;
  intros _;
  destruct (Z.ltb_spec y' y), (Z.eqb_spec y' y), (Z.ltb_spec m' m),
    (Z.eqb_spec m' m), (Z.ltb_spec d' d); cbn; auto; try lia;
  left; repeat f_equal; lia.
Qed.

(** Comparing the time values of two existing dates is comparing the dates. *)
Lemma timeOf_ltb (a b : civil) :
  valid_civil a -> valid_civil b ->
  (timeOf a <? timeOf b) = civil_ltb a b.
Proof.
  intros Ha Hb. destruct (civil_ltb a b) eqn:E.
  - apply Z.ltb_lt. by apply MakeDay_lt.
  - apply Z.ltb_ge. destruct (civil_ltb_total _ _ E) as [-> | E'].
    + lia.
    + pose proof (MakeDay_lt _ _ Hb Ha E'). lia.
Qed.

Lemma check_civil_valid y m d c : check_civil y m d = Some c -> valid_civil c.
Proof.
  unfold check_civil. case_match eqn:E; [|done].
  intros [= <-]. unfold valid_civil.
  repeat (apply andb_prop in E as [E ?]). lia.
Qed.

(** [parseDateOnly] only yields dates that exist. *)
Lemma parseDateOnly_valid s c : parseDateOnly s = Some c -> valid_civil c.
Proof.
  unfold parseDateOnly. intros H.
  repeat case_match; simplify_option_eq; eauto using check_civil_valid.
Qed.

Lemma parseDateOnly_nonempty s c : parseDateOnly s = Some c -> s ≠ "".
Proof. intros H ->. discriminate. Qed.

(** *** [split] and [pop] *)

Lemma split_no_sep sep s : includes sep s = false -> split sep s = [s].
Proof.
  induction s as [|c s IH]; cbn [split includes]; [done|].
  intros [Hc Hs]%orb_false_elim. rewrite Hc, (IH Hs). done.
Qed.

Lemma split_app_sep sep pre seg :
  exists init, init ≠ [] /\
    split sep (pre +:+ String sep seg) = (init ++ split sep seg)%list.
Proof.
  induction pre as [|c pre (init & Hne & IH)].
  - change (EmptyString +:+ String sep seg) with (String sep seg).
    cbn [split]. rewrite Ascii.eqb_refl. by exists [EmptyString].
  - change (String c pre +:+ String sep seg)
      with (String c (pre +:+ String sep seg)).
    cbn [split]. rewrite IH. destruct (Ascii.eqb c sep).
    + by exists (EmptyString :: init).
    + destruct init as [|i0 init]; [done|]. by exists (String c i0 :: init).
Qed.

Lemma split_not_nil sep s : split sep s ≠ [].
Proof.
  destruct s as [|c s]; cbn [split]; [done|].
  destruct (Ascii.eqb c sep); [done|]. by destruct (split sep s).
Qed.

(** The popped segment is what follows the last separator. *)
Lemma pop_split_suffix sep pre seg :
  includes sep seg = false ->
  pop (split sep (pre +:+ String sep seg)) = Some seg.
Proof.
  intros Hseg. destruct (split_app_sep sep pre seg) as (init & _ & ->).
  unfold pop. rewrite (split_no_sep _ _ Hseg).
  by rewrite last_snoc.
Qed.

(** Without a separator the popped segment is the whole string. *)
Lemma pop_split_whole sep s :
  includes sep s = false -> pop (split sep s) = Some s.
Proof. intros H. by rewrite (split_no_sep _ _ H). Qed.

End JsFacts.

(** ** The validator *)

Import JsFacts.

Section Validator.
Variable hostParse : string → option Z.
Variable st : State.

(** The branches of the [switch]. *)
Lemma validateField_patientId v :
  validateField hostParse st "patientId" v =
    if negb (truthy v) then "Patient ID is required"
    else if negb (uuid_re_test (ToString v)) && gt (length v) 0
    then "Invalid UUID format (e.g., 123e4567-e89b-12d3-a456-426614174000)"
    else "".
Proof. reflexivity. Qed.

Lemma validateField_procedureCode v :
  validateField hostParse st "procedureCode" v =
    if negb (truthy v) then "Procedure Code is required" else "".
Proof. reflexivity. Qed.

Lemma validateField_endDate v :
  validateField hostParse st "endDate" v =
    if negb (truthy v) then "End Date is required"
    else if truthy (get (formData st) "startDate")
            && Date_lt (Date hostParse v)
                       (Date hostParse (get (formData st) "startDate"))
    then "End Date cannot be before Start Date"
    else "".
Proof. reflexivity. Qed.

Lemma truthy_VStr s : truthy (VStr s) = negb (String.eqb s "").
Proof. reflexivity. Qed.

Lemma truthy_nonempty s : s ≠ "" -> truthy (VStr s) = true.
Proof. intros H. cbn. by apply negb_true_iff, String.eqb_neq. Qed.

Lemma gt_length_nonempty s : s ≠ "" -> gt (length (VStr s)) 0 = true.
Proof. destruct s; [done|]. reflexivity. Qed.

(** C5, as the code has it: the reason for a malformed patient id carries an
    example. For every string, validating [patientId] gives "Patient ID is
    required" for the empty string, no error when the string consists of
    exactly 36 hexadecimal digits and hyphens, and otherwise the reason
    "Invalid UUID format (e.g., 123e4567-e89b-12d3-a456-426614174000)". *)
Theorem patientId_rule (s : string) :
  validateField hostParse st "patientId" (VStr s) =
    if String.eqb s "" then "Patient ID is required"
    else if uuid_re_test s then ""
    else "Invalid UUID format (e.g., 123e4567-e89b-12d3-a456-426614174000)".
Proof.
  rewrite validateField_patientId, truthy_VStr, negb_involutive.
  destruct (String.eqb_spec s "") as [-> | Hne]; [done|].
  cbn [ToString]. rewrite (gt_length_nonempty _ Hne), andb_true_r.
  by destruct (uuid_re_test s).
Qed.

(** C6, as the code has it: validating [procedureCode] only tests presence.
    The empty (placeholder) value gives "Procedure Code is required"; every
    non-empty string is accepted, whether or not it is one of the configured
    codes, and so is each non-empty code of [PROCEDURE_CODES]. *)
Theorem procedureCode_rule (s : string) :
  validateField hostParse st "procedureCode" (VStr s) =
    (if String.eqb s "" then "Procedure Code is required" else "")
  /\ Forall (λ code, code.1 = "" \/
               validateField hostParse st "procedureCode" (VStr code.1) = "")
       PROCEDURE_CODES.
Proof.
  split.
  - rewrite validateField_procedureCode, truthy_VStr, negb_involutive. done.
  - unfold PROCEDURE_CODES.
    repeat (apply Forall_cons;
            split; [first [left; reflexivity | right; reflexivity]|]).
    apply Forall_nil_2.
Qed.

(** C7: when the start date and the end date are both given as dates (any of
    the date-only encodings of a day that exists), validating [endDate] gives
    "End Date cannot be before Start Date" exactly when the end day is
    strictly earlier than the start day in the calendar, and no error
    otherwise; equal days are valid whatever their encodings. *)
Theorem endDate_ordering (start_ end_ : string) (cs ce : civil) :
  get (formData st) "startDate" = VStr start_ ->
  parseDateOnly start_ = Some cs ->
  parseDateOnly end_ = Some ce ->
  validateField hostParse st "endDate" (VStr end_) =
    if civil_ltb ce cs then "End Date cannot be before Start Date" else "".
Proof.
  intros Hget Hs He. rewrite validateField_endDate, Hget.
  rewrite (truthy_nonempty end_), (truthy_nonempty start_)
    by eauto using parseDateOnly_nonempty.
  cbn [negb andb Date]. unfold Date_parse. rewrite Hs, He. cbn [Date_lt].
  rewrite timeOf_ltb by eauto using parseDateOnly_valid. done.
Qed.

End Validator.

(** C5, as stated, fails: the reason returned for a malformed id is not the
    bare string "Invalid UUID format". *)
Lemma patientId_reason_has_example :
  validateField noHostParse initialState "patientId" (VStr "abc")
    ≠ "Invalid UUID format".
Proof. vm_compute. discriminate. Qed.

(** C6, as stated, fails: a non-empty string that is none of the configured
    codes is accepted. *)
Lemma procedureCode_outside_list_accepted :
  ("ZZZZ" ∉ PROCEDURE_CODES.*1) /\
  validateField noHostParse initialState "procedureCode" (VStr "ZZZZ") = "".
Proof.
  split; [|reflexivity].
  rewrite list_elem_of_In. cbn. intros H. repeat destruct H as [H | H]; done.
Qed.

Lemma endDate_ordering_witness :
  validateField noHostParse (withStart "2024-01-10") "endDate" (VStr "2024-01-05")
    = "End Date cannot be before Start Date".
Proof.
  apply (endDate_ordering noHostParse (withStart "2024-01-10")
           "2024-01-10" "2024-01-05" (2024, 1, 10)%Z (2024, 1, 5)%Z);
    reflexivity.
Defined.

(** The dates of the specification's examples. *)
Example endDate_same_day :
  validateField noHostParse (withStart "2024-01-10") "endDate" (VStr "2024-01-10") = "".
Proof. reflexivity. Qed.

Example endDate_next_day :
  validateField noHostParse (withStart "2024-01-10") "endDate" (VStr "2024-01-11") = "".
Proof. reflexivity. Qed.

(** Two encodings of the first of January compare equal, in both roles. *)
Example endDate_two_encodings :
  validateField noHostParse (withStart "2024-01") "endDate" (VStr "2024-01-01") = ""
  /\ validateField noHostParse (withStart "2024-01-01") "endDate" (VStr "2024") = "".
Proof. split; reflexivity. Qed.

(** ** Changing a field *)

Section Change.
Variable hostParse : string → option Z.
Variable st : State.

(** C1, as the code has it: [handleChange] on [startDate] validates
    [startDate] only. For every state and every change of [startDate], the
    next render holds the new start date, the error entry of [startDate] is
    the validator's result for the new value, and the error entry of
    [endDate] is what it was before the change. *)
Theorem startDate_change_keeps_endDate_entry (v ty : string) (ch : bool) :
  let target :=
    {| name := "startDate"; value := v; input_type := ty; checked := ch |} in
  let newValue := if String.eqb ty "checkbox" then VBool ch else VStr v in
  let st' := step hostParse st (onChange target) in
  formData st' = <["startDate" := newValue]> (formData st)
  /\ errors st'
     = <["startDate" := validateField hostParse st "startDate" newValue]> (errors st)
  /\ errors st' !! "endDate" = errors st !! "endDate".
Proof.
  intros target newValue st'. subst st'. unfold step. cbn.
  repeat split. by rewrite lookup_insert_ne.
Qed.

End Change.

(** C1, as stated, fails: with end = 2024-01-05 and start = 2024-01-01
    entered, changing start to 2024-01-10 leaves the error entry of [endDate]
    empty, although the validator, asked again, would now report the
    ordering error. *)
Lemma startDate_change_stale_endDate_entry :
  let final :=
    run noHostParse initialState
      [ onChange (dateInput "endDate" "2024-01-05");
        onChange (dateInput "startDate" "2024-01-01");
        onChange (dateInput "startDate" "2024-01-10") ] in
  errors final !! "endDate" = Some ""
  /\ errors final !! "endDate" ≠ Some "End Date cannot be before Start Date"
  /\ validateField noHostParse final "endDate" (get (formData final) "endDate")
     = "End Date cannot be before Start Date".
Proof. vm_compute. repeat split; discriminate. Qed.

(** ** The attachment *)

Lemma handleFileChange_cases (file : File.t) :
  handleFileChange (Some file) =
    if bool_decide (fileExt file ∈ allowedTypes) then
      if (File.size file <=? maxSize)%N then acceptance file
      else rejection sizeMessage
    else rejection typeMessage.
Proof.
  unfold handleFileChange. destruct (bool_decide _); cbn [negb]; [|done].
  rewrite N.ltb_antisym. by destruct (File.size file <=? maxSize)%N.
Qed.

Lemma fileExt_dotless (file : File.t) :
  includes "." (File.name file) = false ->
  fileExt file = "." +:+ toLowerCase (File.name file).
Proof. intros H. unfold fileExt. by rewrite pop_split_whole. Qed.

Lemma fileExt_suffix (file : File.t) (pre seg : string) :
  File.name file = pre +:+ String "." seg -> includes "." seg = false ->
  fileExt file = "." +:+ toLowerCase seg.
Proof. intros Hn H. unfold fileExt. by rewrite Hn, pop_split_suffix. Qed.

(** The files of the specification's examples, and an upper-case name. *)
Example attachment_examples :
  handleFileChange (Some (File.mk "notes.pdf" 500000))
  = acceptance (File.mk "notes.pdf" 500000)
  /\ handleFileChange (Some (File.mk "notes.pdf" 11000000))
     = rejection sizeMessage
  /\ (forall n, handleFileChange (Some (File.mk "notes.exe" n))
                = rejection typeMessage)
  /\ handleFileChange (Some (File.mk "NOTES.PDF" 500000))
     = acceptance (File.mk "NOTES.PDF" 500000).
Proof. repeat split. Qed.

(** C8 at the names without a dot: a file whose whole name is, up to case,
    pdf, doc or docx has no extension, yet it passes the type check; up to
    10485760 bytes it is accepted, stored with [hasNotes] set, and
    announced by the success notification. *)
Theorem dotless_names_pass_type_check (st : State) (file : File.t) :
  includes "." (File.name file) = false ->
  toLowerCase (File.name file) ∈ ["pdf"; "doc"; "docx"] ->
  (File.size file <= 10485760)%N ->
  let effs := handleFileChange (Some file) in
  let st' := commit st effs in
  effs = acceptance file
  /\ get (formData st') "uploadedFile" = VFile file
  /\ get (formData st') "hasNotes" = VBool true
  /\ notifications effs
     = [ {| message := "File " +:+ dquote +:+ File.name file
                       +:+ dquote +:+ " ready to upload.";
            type := success |} ].
Proof.
  intros Hdot Hname Hsize effs st'. subst st' effs.
  assert (fileExt file ∈ allowedTypes) as Hext.
  { rewrite (fileExt_dotless _ Hdot). revert Hname.
    unfold allowedTypes. rewrite !elem_of_cons, !elem_of_nil.
    intros H. repeat destruct H as [H | H]; try done; rewrite H; auto. }
  rewrite handleFileChange_cases, (bool_decide_eq_true_2 _ Hext).
  change maxSize with 10485760%N.
  destruct (N.leb_spec (File.size file) 10485760) as [_ | Hgt]; [|lia].
  unfold get. cbn.
  rewrite lookup_insert_ne, !lookup_insert_eq by done. done.
Qed.

Lemma dotless_names_pass_type_check_witness :
  handleFileChange (Some (File.mk "pdf" 100)) = acceptance (File.mk "pdf" 100)
  /\ get (formData (commit initialState
                      (handleFileChange (Some (File.mk "pdf" 100)))))
       "hasNotes" = VBool true.
Proof.
  assert (toLowerCase "pdf" ∈ ["pdf"; "doc"; "docx"]) as Hname
      by (rewrite list_elem_of_In; cbn; tauto).
  assert (100 <= 10485760)%N as Hsize by lia.
  destruct (dotless_names_pass_type_check initialState (File.mk "pdf" 100)
              eq_refl Hname Hsize) as (H1 & _ & H2 & _).
  split; [exact H1 | exact H2].
Defined.

(** C9: a rejected file (wrong extension, or size over the ceiling) makes
    [handleFileChange] emit exactly one error notification, whose message
    names the failed constraint, and nothing else: the form data, the error
    map and the submission flag of the next render are those of the current
    one. *)
Theorem attachment_rejection (st : State) (file : File.t) :
  fileExt file ∉ allowedTypes \/ (10 * 1024 * 1024 < File.size file)%N ->
  let effs := handleFileChange (Some file) in
  let st' := commit st effs in
  effs = rejection (if bool_decide (fileExt file ∈ allowedTypes)
                    then sizeMessage else typeMessage)
  /\ notifications effs
     = [ {| message := if bool_decide (fileExt file ∈ allowedTypes)
                       then sizeMessage else typeMessage;
            type := error |} ]
  /\ formData st' = formData st
  /\ errors st' = errors st
  /\ isSubmitting st' = isSubmitting st
  /\ isUploading st' = isUploading st.
Proof.
  intros Hrej effs st'. subst st' effs. rewrite handleFileChange_cases.
  change (10 * 1024 * 1024)%N with maxSize in Hrej.
  case_bool_decide as Hext.
  - destruct (N.leb_spec (File.size file) maxSize) as [Hsz | Hsz].
    + destruct Hrej; [done | lia].
    + done.
  - done.
Qed.

Lemma attachment_rejection_witness :
  notifications (handleFileChange (Some (File.mk "notes.exe" 1000)))
    = [ {| message := typeMessage; type := error |} ]
  /\ formData (commit initialState
                 (handleFileChange (Some (File.mk "notes.exe" 1000))))
     = formData initialState.
Proof.
  assert (fileExt (File.mk "notes.exe" 1000) ∉ allowedTypes) as Hext.
  { rewrite list_elem_of_In. cbn. intros H.
    repeat destruct H as [H | H]; discriminate || done. }
  destruct (attachment_rejection initialState (File.mk "notes.exe" 1000)
              (or_introl Hext)) as (_ & Hn & Hfd & _).
  split; [exact Hn | exact Hfd].
Defined.

(** C10 at a name without a dot: the extension computed for such a name is
    a dot and the lower-cased name, so the name [pdf] gets the extension
    [.pdf] and the file is accepted, stored and announced. *)
Theorem dotless_name_accepted :
  (forall file, includes "." (File.name file) = false ->
                fileExt file = "." +:+ toLowerCase (File.name file))
  /\ includes "." "pdf" = false
  /\ fileExt (File.mk "pdf" 100) = ".pdf"
  /\ handleFileChange (Some (File.mk "pdf" 100)) = acceptance (File.mk "pdf" 100)
  /\ get (formData (commit initialState
                      (handleFileChange (Some (File.mk "pdf" 100)))))
       "uploadedFile" = VFile (File.mk "pdf" 100)
  /\ get (formData (commit initialState
                      (handleFileChange (Some (File.mk "pdf" 100)))))
       "hasNotes" = VBool true.
Proof. split; [exact fileExt_dotless | repeat split]. Qed.

(** ** Submitting *)

Section Submit.
Variable hostParse : string → option Z.
Variable st : State.

Local Abbreviation fieldError := (fieldError hostParse st).

Lemma required_agrees key msg v :
  (key, msg) ∈ requiredChecks -> truthy v = false ->
  validateField hostParse st key v = msg.
Proof.
  rewrite list_elem_of_In. cbn. intros H Hv.
  repeat destruct H as [H | H]; try done; injection H as <- <-;
    unfold validateField; cbn [String.eqb Ascii.eqb Bool.eqb];
    by rewrite Hv.
Qed.

Lemma forEach_key_keep acc key k :
  acc.1 !! k = Some (fieldError k) ->
  (forEach_key hostParse st acc key).1 !! k = Some (fieldError k).
Proof.
  intros H. unfold forEach_key.
  destruct (String.eqb key "hasNotes"); cbn [negb]; [done|].
  destruct (truthy _); [|done]. cbn.
  destruct (decide (key = k)) as [-> | Hne].
  - by rewrite lookup_insert_eq.
  - by rewrite lookup_insert_ne.
Qed.

Lemma forEach_keep l acc k :
  acc.1 !! k = Some (fieldError k) ->
  (foldl (forEach_key hostParse st) acc l).1 !! k = Some (fieldError k).
Proof.
  revert acc. induction l as [|key l IH]; intros acc H; [done|].
  cbn. by apply IH, forEach_key_keep.
Qed.

Lemma forEach_key_flag acc key :
  acc.2 = false -> (forEach_key hostParse st acc key).2 = false.
Proof.
  intros H. unfold forEach_key.
  destruct (String.eqb key "hasNotes"); cbn [negb]; [done|].
  by destruct (truthy _).
Qed.

Lemma forEach_flag l acc :
  acc.2 = false -> (foldl (forEach_key hostParse st) acc l).2 = false.
Proof.
  revert acc. induction l as [|key l IH]; intros acc H; [done|].
  cbn. by apply IH, forEach_key_flag.
Qed.

(** The loop records every failing key it visits. *)
Lemma forEach_records l acc k :
  k ∈ l -> k ≠ "hasNotes" -> fieldError k ≠ "" ->
  let acc' := foldl (forEach_key hostParse st) acc l in
  acc'.1 !! k = Some (fieldError k) /\ acc'.2 = false.
Proof.
  intros Hin Hk Herr. revert acc.
  induction Hin as [k l | k key l Hin IH]; intros acc; cbn.
  - assert (forEach_key hostParse st acc k
            = (<[k := fieldError k]> acc.1, false)) as ->.
    { unfold forEach_key. apply String.eqb_neq in Hk. rewrite Hk. cbn [negb].
      fold (fieldError k). by rewrite (truthy_nonempty _ Herr). }
    split; [apply forEach_keep | apply forEach_flag]; [|done].
    apply lookup_insert_eq.
  - by apply IH.
Qed.

Lemma required_keep key msg acc k :
  (key, msg) ∈ requiredChecks ->
  acc.1 !! k = Some (fieldError k) ->
  (required st key msg acc).1 !! k = Some (fieldError k).
Proof.
  intros Hreq H. unfold required.
  destruct (truthy (get (formData st) key)) eqn:Hv; cbn [negb]; [done|].
  cbn. destruct (decide (key = k)) as [-> | Hne].
  - rewrite lookup_insert_eq. unfold fieldError.
    by rewrite (required_agrees _ _ _ Hreq Hv).
  - by rewrite lookup_insert_ne.
Qed.

Lemma required_flag key msg acc :
  acc.2 = false -> (required st key msg acc).2 = false.
Proof. intros H. unfold required. by destruct (negb _). Qed.

(** [isFormValid] reports every failing field and answers [false]. *)
Lemma checkForm_records k v :
  formData st !! k = Some v -> k ≠ "hasNotes" ->
  validateField hostParse st k v ≠ "" ->
  (checkForm hostParse st).1 !! k = Some (validateField hostParse st k v)
  /\ (checkForm hostParse st).2 = false.
Proof.
  intros Hk Hne Herr.
  assert (get (formData st) k = v) as Hget by (unfold get; by rewrite Hk).
  assert (fieldError k = validateField hostParse st k v) as Hfe
      by (unfold fieldError; by rewrite Hget).
  rewrite <- Hfe in *.
  assert (k ∈ keys (formData st)) as Hin.
  { unfold keys. apply list_elem_of_fmap. exists (k, v).
    split; [done|]. by apply elem_of_map_to_list. }
  destruct (forEach_records _ (∅, true) k Hin Hne Herr) as [H1 H2].
  unfold checkForm. cbv zeta.
  split.
  - repeat (apply required_keep;
            [rewrite list_elem_of_In; cbn; tauto|]).
    exact H1.
  - repeat apply required_flag. exact H2.
Qed.

Lemma handleSubmit_invalid :
  (checkForm hostParse st).2 = false ->
  handleSubmit hostParse st =
    [ preventDefault;
      setErrors (λ _, (checkForm hostParse st).1);
      setToast (Some {| message := "Please fix the validation errors before submitting.";
                        type := error |}) ].
Proof.
  intros H. unfold handleSubmit, isFormValid.
  destruct (checkForm hostParse st) as [newErrors isValid].
  cbn in H. by subst isValid.
Qed.

Lemma handleSubmit_valid :
  (checkForm hostParse st).2 = true ->
  handleSubmit hostParse st =
    [ preventDefault;
      setErrors (λ _, (checkForm hostParse st).1);
      setIsSubmitting true; setToast None; apiCall ].
Proof.
  intros H. unfold handleSubmit, isFormValid.
  destruct (checkForm hostParse st) as [newErrors isValid].
  cbn in H. by subst isValid.
Qed.

(** C3: when some field of the form is invalid, one [handleSubmit] call
    replaces the error map by one that holds, for every invalid field, the
    validator's reason for it; it emits exactly one notification, the error
    telling the user to fix the validation errors; and it does not invoke
    the submit capability. *)
Theorem submit_invalid_reports_all :
  (exists k v, formData st !! k = Some v /\ k ≠ "hasNotes"
               /\ validateField hostParse st k v ≠ "") ->
  let effs := handleSubmit hostParse st in
  let st' := commit st effs in
  (forall k v, formData st !! k = Some v -> k ≠ "hasNotes" ->
               validateField hostParse st k v ≠ "" ->
               errors st' !! k = Some (validateField hostParse st k v))
  /\ notifications effs
     = [ {| message := "Please fix the validation errors before submitting.";
            type := error |} ]
  /\ apiCalls effs = 0
  /\ isSubmitting st' = isSubmitting st
  /\ formData st' = formData st.
Proof.
  intros (k0 & v0 & H0 & Hne0 & Herr0) effs st'. subst st' effs.
  destruct (checkForm_records _ _ H0 Hne0 Herr0) as [_ Hflag].
  rewrite (handleSubmit_invalid Hflag). cbn.
  repeat split. intros k v Hk Hne Herr.
  by destruct (checkForm_records _ _ Hk Hne Herr).
Qed.

End Submit.

Lemma submit_invalid_reports_all_witness :
  let st' := commit initialState (handleSubmit noHostParse initialState) in
  errors st' !! "patientId" = Some "Patient ID is required"
  /\ errors st' !! "endDate" = Some "End Date is required"
  /\ apiCalls (handleSubmit noHostParse initialState) = 0.
Proof.
  assert (exists k v, formData initialState !! k = Some v /\ k ≠ "hasNotes"
            /\ validateField noHostParse initialState k v ≠ "") as Hex.
  { exists "patientId", (VStr ""). repeat split; [discriminate..]. }
  destruct (submit_invalid_reports_all noHostParse initialState Hex)
    as (Hall & _ & Hapi & _).
  split; [|split]; [| |exact Hapi].
  - apply (Hall "patientId" (VStr "")); [reflexivity | discriminate..].
  - apply (Hall "endDate" (VStr "")); [reflexivity | discriminate..].
Defined.




(** ** The attachment flag *)

Section Invariant.
Variable hostParse : string → option Z.

Lemma handleSubmit_formData st :
  formData (commit st (handleSubmit hostParse st)) = formData st.
Proof.
  destruct ((checkForm hostParse st).2) eqn:E.
  - by rewrite (handleSubmit_valid _ _ E).
  - by rewrite (handleSubmit_invalid _ _ E).
Qed.

Lemma attachment_inv_insert fd k v :
  k ≠ "hasNotes" -> k ≠ "uploadedFile" ->
  attachment_inv fd -> attachment_inv (<[k := v]> fd).
Proof.
  intros H1 H2. unfold attachment_inv.
  by rewrite !lookup_insert_ne.
Qed.

Lemma step_attachment_inv st ev :
  sparesAttachment ev = true ->
  attachment_inv (formData st) ->
  attachment_inv (formData (step hostParse st ev)).
Proof.
  intros Hev Hinv. unfold step.
  destruct ev as [target | target | [file|] | | | fulfilled | ]; cbn [handler].
  - apply andb_prop in Hev as [H1%negb_true_iff%String.eqb_neq
                                 H2%negb_true_iff%String.eqb_neq].
    unfold handleChange. apply String.eqb_neq in H1 as H1'. rewrite H1'.
    cbn. by apply attachment_inv_insert.
  - done.
  - rewrite handleFileChange_cases.
    destruct (bool_decide _); [destruct (_ <=? _)%N|]; cbn; try done.
    right. split; [by rewrite lookup_insert_eq|]. exists file.
    by rewrite lookup_insert_ne, lookup_insert_eq.
  - done.
  - cbn. left. split; [by rewrite lookup_insert_eq|].
    by rewrite lookup_insert_ne, lookup_insert_eq.
  - unfold submit. destruct (submitDisabled st); [done|].
    by rewrite handleSubmit_formData.
  - by destruct fulfilled.
  - done.
Qed.

(** C4, as the code has it: [handleChange] sets whatever field the changed
    input names, [hasNotes] included. In every state reached from the
    initial one by events other than a change of an input named [hasNotes]
    or [uploadedFile] (changes of the other fields, blurs, file selections,
    removals of the file, submissions and their completion, closing the
    toast), [hasNotes] is true exactly when [uploadedFile] is not null. *)
Theorem hasNotes_tracks_attachment (evs : list Event) :
  forallb sparesAttachment evs = true ->
  let st := run hostParse initialState evs in
  get (formData st) "hasNotes" = VBool true
  <-> get (formData st) "uploadedFile" ≠ VNull.
Proof.
  intros Hevs st.
  assert (attachment_inv (formData st)) as Hinv.
  { subst st. unfold run.
    assert (attachment_inv (formData initialState)) as H0 by (by left).
    revert H0 Hevs. generalize initialState.
    induction evs as [|ev evs IH]; intros s H0 Hevs; [done|].
    cbn in Hevs. apply andb_prop in Hevs as [Hev Hevs].
    cbn. apply IH; [|done]. by apply step_attachment_inv. }
  unfold get.
  destruct Hinv as [[-> ->] | [-> [file ->]]]; cbn; split; done.
Qed.

End Invariant.

Lemma hasNotes_tracks_attachment_witness :
  let st := run noHostParse initialState
              [ onChange (textInput "npiNumber" "1234567890");
                onFileChange (Some (File.mk "notes.pdf" 500000)) ] in
  get (formData st) "hasNotes" = VBool true
  <-> get (formData st) "uploadedFile" ≠ VNull.
Proof.
  apply (hasNotes_tracks_attachment noHostParse
           [ onChange (textInput "npiNumber" "1234567890");
             onFileChange (Some (File.mk "notes.pdf" 500000)) ]).
  reflexivity.
Defined.

(** C4, as stated, fails: a change event of a checkbox named [hasNotes]
    (the input [ClaimSubmissionForm.tsx] renders, handled by the same
    [handleChange]) sets the flag while no file is attached. *)
Lemma hasNotes_checkbox_diverges :
  let st := run noHostParse initialState [ onChange (checkbox "hasNotes" true) ] in
  get (formData st) "hasNotes" = VBool true
  /\ get (formData st) "uploadedFile" = VNull
  /\ ~ (get (formData st) "hasNotes" = VBool true
        <-> get (formData st) "uploadedFile" ≠ VNull).
Proof.
  vm_compute. repeat split; try reflexivity.
  intros [H _]. by apply H.
Qed.

(** ** Further properties of the validator *)

Section ValidatorMore.
Variable hostParse : string → option Z.

(** Only the rule of [endDate] reads the form, and only its start date. *)
Lemma validateField_frame st st' name v :
  name ≠ "endDate"
  \/ get (formData st) "startDate" = get (formData st') "startDate" ->
  validateField hostParse st name v = validateField hostParse st' name v.
Proof.
  intros [Hne | Heq]; unfold validateField.
  - destruct (String.eqb_spec name "endDate") as [? | _]; [done|].
    repeat match goal with
           | |- context [String.eqb name ?s] =>
               destruct (String.eqb name s); [reflexivity|]
           end.
    reflexivity.
  - by rewrite Heq.
Qed.

Lemma validateField_hasNotes st v :
  validateField hostParse st "hasNotes" v = "".
Proof. reflexivity. Qed.

(** X13: for each of the seven required fields the validator returns the
    field's "... is required" reason exactly when the value is falsy (the
    empty string, [false], [null] or [undefined]). *)
Theorem required_reason_iff_falsy st key msg v :
  (key, msg) ∈ requiredChecks ->
  validateField hostParse st key v = msg <-> truthy v = false.
Proof.
  intros Hreq. split; [|by apply required_agrees].
  revert Hreq. rewrite list_elem_of_In. cbn. intros H.
  destruct (truthy v) eqn:Hv; [|done].
  repeat destruct H as [H | H]; try done; injection H as <- <-;
    unfold validateField; cbn [String.eqb Ascii.eqb Bool.eqb];
    rewrite Hv; cbn [negb];
    repeat (match goal with |- context [if ?b then _ else _] => destruct b end);
    discriminate.
Qed.

(** X14: what the text fields outside the claims accept. A date of birth
    and a start date are accepted exactly when non-empty, a physician name
    exactly when it has at least two characters, an NPI number exactly
    when it consists of ten decimal digits; the reasons for a non-empty
    rejected name and NPI are the length and the digit messages. *)
Theorem text_fields_accept st (s : string) :
  (validateField hostParse st "dob" (VStr s) = "" <-> s ≠ "")
  /\ (validateField hostParse st "startDate" (VStr s) = "" <-> s ≠ "")
  /\ (validateField hostParse st "physicianName" (VStr s) = ""
      <-> 2 <= String.length s)
  /\ (validateField hostParse st "npiNumber" (VStr s) = ""
      <-> String.length s = 10
          /\ Forall (λ c, (48 <= code c <= 57)%N) (list_ascii_of_string s))
  /\ (String.length s = 1 ->
      validateField hostParse st "physicianName" (VStr s)
      = "Name must be at least 2 characters")
  /\ (s ≠ "" -> npi_re_test s = false ->
      validateField hostParse st "npiNumber" (VStr s)
      = "NPI must be exactly 10 digits").
Proof.
  assert (forall c, isDigit c = true <-> (48 <= code c <= 57)%N) as Hdigit.
  { intros c. unfold isDigit, between.
    rewrite andb_true_iff, !N.leb_le. done. }
  assert (npi_re_test s = true
          <-> String.length s = 10
              /\ Forall (λ c, (48 <= code c <= 57)%N) (list_ascii_of_string s))
    as Hnpi.
  { unfold npi_re_test. rewrite andb_true_iff, Nat.eqb_eq, forallb_forall.
    rewrite Forall_forall. setoid_rewrite list_elem_of_In.
    setoid_rewrite Hdigit. done. }
  assert (npi_re_test "" = false) as Hnpi0 by reflexivity.
  unfold validateField; cbn [String.eqb Ascii.eqb Bool.eqb].
  rewrite truthy_VStr, negb_involutive. cbn [ToString length lt].
  rewrite <- Hnpi.
  destruct (String.eqb_spec s "") as [-> | Hne].
  - rewrite Hnpi0. cbn. repeat split; try done; lia.
  - destruct (npi_re_test s) eqn:E; cbn [negb];
      (destruct s as [|c [|c' s']]; [done | |]);
      cbn [String.length Nat.ltb Nat.leb];
      repeat split; try done; try lia.
Qed.

(** X12: the ordering rule of [endDate] needs two comparable dates. When no
    start date has been entered, or either date does not parse (its time
    value is NaN), every non-empty end date is accepted. *)
Theorem endDate_without_comparable_start st (e : string) :
  e ≠ "" ->
  truthy (get (formData st) "startDate") = false
  \/ Date hostParse (VStr e) = None
  \/ Date hostParse (get (formData st) "startDate") = None ->
  validateField hostParse st "endDate" (VStr e) = "".
Proof.
  intros He H. rewrite validateField_endDate, (truthy_nonempty _ He).
  cbn [negb]. destruct H as [-> | [-> | ->]]; cbn [andb Date_lt]; [done | |].
  - by rewrite andb_false_r.
  - destruct (Date hostParse (VStr e)); by rewrite andb_false_r.
Qed.

End ValidatorMore.

Lemma required_reason_iff_falsy_witness :
  validateField noHostParse initialState "npiNumber" VNull
  = "NPI Number is required".
Proof.
  apply (required_reason_iff_falsy noHostParse initialState
           "npiNumber" "NPI Number is required" VNull).
  - rewrite list_elem_of_In. cbn. tauto.
  - reflexivity.
Defined.

Lemma endDate_without_comparable_start_witness :
  validateField noHostParse (withStart "soon") "endDate" (VStr "2024-01-05") = "".
Proof.
  apply (endDate_without_comparable_start noHostParse (withStart "soon")
           "2024-01-05").
  - discriminate.
  - right. right. reflexivity.
Defined.

(** ** Sequences of changes *)

Section Changes.
Variable hostParse : string → option Z.

(** The render after a change event. *)
Lemma step_onChange st target :
  step hostParse st (onChange target) =
    {| formData := <[name target := newValue target]> (formData st);
       errors :=
         if String.eqb (name target) "hasNotes" then errors st
         else <[name target :=
                  validateField hostParse st (name target) (newValue target)]>
                (errors st);
       isSubmitting := isSubmitting st;
       toast := toast st;
       isUploading := isUploading st |}.
Proof.
  unfold step. cbn [handler]. unfold handleChange. fold (newValue target).
  by destruct (String.eqb (name target) "hasNotes").
Qed.

(** A change of field [a] does not alter the verdict on field [b], unless
    [a] is the start date and [b] the end date. *)
Lemma validateField_after_change st target b v :
  ~ (name target = "startDate" /\ b = "endDate") ->
  validateField hostParse (step hostParse st (onChange target)) b v
  = validateField hostParse st b v.
Proof.
  intros H. apply validateField_frame.
  destruct (decide (b = "endDate")) as [-> | Hb]; [right | by left].
  rewrite step_onChange. cbn [formData]. unfold get.
  rewrite lookup_insert_ne; [done|]. intros Hn. by apply H.
Qed.

(** X1: a change event is idempotent: delivering the same change twice
    leaves the form data and the error map as after the first delivery. *)
Theorem change_idempotent st target :
  step hostParse (step hostParse st (onChange target)) (onChange target)
  = step hostParse st (onChange target).
Proof.
  rewrite (step_onChange (step _ _ _)).
  rewrite validateField_after_change.
  - rewrite step_onChange. cbn [formData errors isSubmitting toast isUploading].
    rewrite insert_insert_eq.
    destruct (String.eqb (name target) "hasNotes"); [done|].
    by rewrite insert_insert_eq.
  - intros [H1 H2]. rewrite H1 in H2. discriminate.
Qed.

(** X2: changes of two different fields commute, except for the pair start
    date / end date: either order leads to the same form data and the same
    error map. *)
Theorem changes_commute st ta tb :
  name ta ≠ name tb ->
  ~ (name ta = "startDate" /\ name tb = "endDate") ->
  ~ (name ta = "endDate" /\ name tb = "startDate") ->
  step hostParse (step hostParse st (onChange ta)) (onChange tb)
  = step hostParse (step hostParse st (onChange tb)) (onChange ta).
Proof.
  intros Hne Hab Hba.
  rewrite (step_onChange (step _ _ (onChange ta))).
  rewrite (step_onChange (step _ _ (onChange tb))).
  rewrite !validateField_after_change by tauto.
  rewrite !step_onChange.
  cbn [formData errors isSubmitting toast isUploading].
  rewrite (insert_insert_ne (formData st)) by done.
  destruct (String.eqb (name ta) "hasNotes"),
    (String.eqb (name tb) "hasNotes"); try done.
  by rewrite (insert_insert_ne (errors st)).
Qed.

(** X3: the end date is validated against a changed start date as soon as
    the end-date input is blurred. After any change of [startDate], a blur
    of the [endDate] input (which carries the field's current value) sets
    the [endDate] entry to the validator's verdict in the resulting state,
    and changes no field value. *)
Theorem blur_revalidates_endDate st (v ty : string) (ch : bool)
    (e ty' : string) (ch' : bool) :
  get (formData st) "endDate" = VStr e ->
  let change :=
    {| name := "startDate"; value := v; input_type := ty; checked := ch |} in
  let blur :=
    {| name := "endDate"; value := e; input_type := ty'; checked := ch' |} in
  let st1 := step hostParse st (onChange change) in
  let st2 := step hostParse st1 (onBlur blur) in
  errors st2 !! "endDate" = Some (fieldError hostParse st2 "endDate")
  /\ formData st2 = formData st1.
Proof.
  intros He change blur st1 st2.
  assert (formData st2 = formData st1) as Hfd by done.
  split; [|done].
  assert (get (formData st1) "endDate" = VStr e) as He1.
  { subst st1. rewrite step_onChange. cbn [formData]. unfold get.
    rewrite lookup_insert_ne by done. exact He. }
  unfold fieldError. rewrite Hfd, He1.
  rewrite (validateField_frame hostParse st2 st1) by (right; by rewrite Hfd).
  subst st2. unfold step. cbn. by rewrite lookup_insert_eq.
Qed.

(** No handler deletes a property of [formData]. *)
Lemma step_keeps_keys st ev k :
  is_Some (formData st !! k) ->
  is_Some (formData (step hostParse st ev) !! k).
Proof.
  intros Hk. unfold step.
  assert (forall (k' : string) (v : JsValue) (fd : FormData),
            is_Some (fd !! k) -> is_Some (<[k' := v]> fd !! k)) as Hins.
  { intros k' v fd H. rewrite lookup_insert. by case_decide. }
  destruct ev as [target | target | [file|] | | | fulfilled | ]; cbn [handler].
  - change (commit st (handleChange hostParse st target))
      with (step hostParse st (onChange target)).
    rewrite step_onChange. cbn [formData]. by apply Hins.
  - done.
  - rewrite handleFileChange_cases.
    destruct (bool_decide _); [destruct (_ <=? _)%N|]; cbn; try done.
    by do 2 apply Hins.
  - done.
  - cbn. by do 2 apply Hins.
  - unfold submit. destruct (submitDisabled st); [done|].
    by rewrite handleSubmit_formData.
  - by destruct fulfilled.
  - done.
Qed.

(** X8: no sequence of events ever removes a field from the form data: a
    property present in some state is present in every later state. *)
Theorem fields_never_removed st (evs : list Event) (k : string) :
  is_Some (formData st !! k) ->
  is_Some (formData (run hostParse st evs) !! k).
Proof.
  revert st. induction evs as [|ev evs IH]; intros st Hk; [done|].
  cbn. by apply IH, step_keeps_keys.
Qed.

End Changes.

Lemma changes_commute_witness :
  let ta := textInput "npiNumber" "1234567890" in
  let tb := dateInput "endDate" "2024-01-05" in
  step noHostParse (step noHostParse (withStart "2024-01-10") (onChange ta))
    (onChange tb)
  = step noHostParse (step noHostParse (withStart "2024-01-10") (onChange tb))
      (onChange ta).
Proof.
  apply (changes_commute noHostParse (withStart "2024-01-10")
           (textInput "npiNumber" "1234567890")
           (dateInput "endDate" "2024-01-05")).
  - discriminate.
  - intros [H _]. discriminate.
  - intros [H _]. discriminate.
Defined.

(** The form with an end date entered and accepted. *)
Lemma blur_revalidates_endDate_witness :
  let st := step noHostParse initialState
              (onChange (dateInput "endDate" "2024-01-05")) in
  let st1 := step noHostParse st (onChange (dateInput "startDate" "2024-01-10")) in
  let st2 := step noHostParse st1 (onBlur (dateInput "endDate" "2024-01-05")) in
  errors st2 !! "endDate" = Some (fieldError noHostParse st2 "endDate")
  /\ formData st2 = formData st1.
Proof.
  apply (blur_revalidates_endDate noHostParse
           (step noHostParse initialState
              (onChange (dateInput "endDate" "2024-01-05")))
           "2024-01-10" "date" false "2024-01-05" "date" false).
  reflexivity.
Defined.

Lemma fields_never_removed_witness :
  is_Some (formData (run noHostParse initialState
                       [ onFileChange (Some (File.mk "notes.pdf" 500000));
                         onRemoveFile; onSubmit ]) !! "uploadedFile").
Proof.
  apply (fields_never_removed noHostParse initialState
           [ onFileChange (Some (File.mk "notes.pdf" 500000));
             onRemoveFile; onSubmit ] "uploadedFile").
  by exists VNull.
Defined.

(** ** The types of the form data *)

Lemma fieldNames_not_attachment k :
  k ∈ fieldNames -> k ≠ "hasNotes" /\ k ≠ "uploadedFile".
Proof.
  rewrite list_elem_of_In. cbn. intros H.
  repeat destruct H as [<- | H]; done.
Qed.

Lemma wellTyped_insert_field fd k s :
  k ∈ fieldNames -> wellTyped fd -> wellTyped (<[k := VStr s]> fd).
Proof.
  intros Hk (Hf & Hn & Hu). destruct (fieldNames_not_attachment _ Hk).
  split; [|split].
  - intros k' Hk'. rewrite lookup_insert. case_decide; [by exists s | by apply Hf].
  - by rewrite lookup_insert_ne.
  - by rewrite lookup_insert_ne.
Qed.

Lemma wellTyped_insert_attachment fd b v :
  v = VNull \/ (exists file, v = VFile file) ->
  wellTyped fd ->
  wellTyped (<["hasNotes" := VBool b]> (<["uploadedFile" := v]> fd)).
Proof.
  intros Hv (Hf & Hn & Hu). split; [|split].
  - intros k Hk. destruct (fieldNames_not_attachment _ Hk).
    rewrite !lookup_insert_ne by done. by apply Hf.
  - exists b. by rewrite lookup_insert_eq.
  - rewrite lookup_insert_ne, lookup_insert_eq by done.
    destruct Hv as [-> | [file ->]]; [by left | right; by exists file].
Qed.

Section Typing.
Variable hostParse : string → option Z.

Lemma step_wellTyped st ev :
  fromRenderedInput ev = true ->
  wellTyped (formData st) -> wellTyped (formData (step hostParse st ev)).
Proof.
  intros Hev Hwt.
  destruct ev as [target | target | [file|] | | | fulfilled | ].
  - rewrite step_onChange. cbn [formData].
    cbn in Hev. apply andb_prop in Hev as [Hn%bool_decide_eq_true Ht].
    unfold newValue. apply negb_true_iff in Ht. rewrite Ht.
    by apply wellTyped_insert_field.
  - done.
  - unfold step. cbn [handler]. rewrite handleFileChange_cases.
    destruct (bool_decide _); [destruct (_ <=? _)%N|]; cbn; try done.
    apply wellTyped_insert_attachment; [|done]. right. by exists file.
  - done.
  - unfold step. cbn. apply wellTyped_insert_attachment; [|done]. by left.
  - unfold step. cbn [handler]. unfold submit.
    destruct (submitDisabled st); [done|]. by rewrite handleSubmit_formData.
  - by destruct fulfilled.
  - done.
Qed.

(** X15: the form data keeps the types its interface declares. In every
    state reached from the initial one by events of the rendered form
    (changes of its seven inputs, none a checkbox; blurs; file selections
    and removals; submissions and their completion), each of the seven
    fields holds a string, [hasNotes] a boolean and [uploadedFile] a File
    or [null]. *)
Theorem formData_stays_typed (evs : list Event) :
  forallb fromRenderedInput evs = true ->
  wellTyped (formData (run hostParse initialState evs)).
Proof.
  assert (wellTyped (formData initialState)) as H0.
  { split; [|split].
    - intros k. rewrite list_elem_of_In. cbn. intros H.
      repeat destruct H as [<- | H]; try done; by exists "".
    - by exists false.
    - by left. }
  revert H0. unfold run. generalize initialState.
  induction evs as [|ev evs IH]; intros st H0 Hevs; [done|].
  cbn in Hevs. apply andb_prop in Hevs as [Hev Hevs].
  cbn. apply IH; [|done]. by apply step_wellTyped.
Qed.

End Typing.

Lemma formData_stays_typed_witness :
  wellTyped (formData (run noHostParse initialState
                         [ onChange (textInput "patientId" "abc");
                           onFileChange (Some (File.mk "notes.pdf" 500000));
                           onSubmit ])).
Proof.
  apply (formData_stays_typed noHostParse
           [ onChange (textInput "patientId" "abc");
             onFileChange (Some (File.mk "notes.pdf" 500000));
             onSubmit ]).
  reflexivity.
Defined.

(** ** The verdict of [isFormValid] *)

Section Verdict.
Variable hostParse : string → option Z.
Variable st : State.

Local Abbreviation err := (fieldError hostParse st).
Local Abbreviation entries_sound := (entries_sound hostParse st).

(** Only the seven fields can fail. *)
Lemma fieldError_names k : err k ≠ "" -> k ∈ fieldNames.
Proof.
  unfold fieldError, validateField, fieldNames.
  repeat match goal with
         | |- context [String.eqb k ?s] =>
             destruct (String.eqb_spec k s) as [-> | ?];
             [intros _; rewrite list_elem_of_In; cbn; tauto|]
         end.
  done.
Qed.

Lemma requiredChecks_names k :
  k ∈ fieldNames -> exists msg, (k, msg) ∈ requiredChecks.
Proof.
  rewrite list_elem_of_In. cbn. intros H.
  repeat destruct H as [<- | H]; try done;
    eexists; rewrite list_elem_of_In; cbn; eauto 10.
Qed.

Lemma requiredChecks_nonempty key msg :
  (key, msg) ∈ requiredChecks -> msg ≠ "" /\ key ≠ "hasNotes".
Proof.
  rewrite list_elem_of_In. cbn. intros H.
  repeat destruct H as [H | H]; try done; by injection H as <- <-.
Qed.

Lemma forEach_key_sound acc key :
  entries_sound acc -> entries_sound (forEach_key hostParse st acc key).
Proof.
  intros Hacc. unfold forEach_key.
  destruct (String.eqb key "hasNotes"); cbn [negb]; [done|].
  fold (err key).
  destruct (truthy (VStr (err key))) eqn:Ht; [|done].
  intros k e. cbn. rewrite lookup_insert. case_decide as Hk.
  - intros [= <-]. subst k. split; [done|].
    intros Hempty. rewrite Hempty in Ht. discriminate.
  - apply Hacc.
Qed.

Lemma forEach_sound l acc :
  entries_sound acc -> entries_sound (foldl (forEach_key hostParse st) acc l).
Proof.
  revert acc. induction l as [|key l IH]; intros acc H; [done|].
  cbn. by apply IH, forEach_key_sound.
Qed.

Lemma required_sound key msg acc :
  (key, msg) ∈ requiredChecks ->
  entries_sound acc -> entries_sound (required st key msg acc).
Proof.
  intros Hreq Hacc. unfold required.
  destruct (truthy (get (formData st) key)) eqn:Hv; cbn [negb]; [done|].
  intros k e. cbn. rewrite lookup_insert. case_decide as Hk.
  - intros [= <-]. subst k. unfold fieldError.
    rewrite (required_agrees _ _ _ _ _ Hreq Hv).
    split; [done|]. by apply (requiredChecks_nonempty key).
  - apply Hacc.
Qed.

Lemma checkForm_sound : entries_sound (checkForm hostParse st).
Proof.
  unfold checkForm. cbv zeta.
  repeat (apply required_sound; [rewrite list_elem_of_In; cbn; tauto|]).
  apply forEach_sound. intros k e. cbn. by rewrite lookup_empty.
Qed.

Lemma required_sets key msg acc :
  truthy (get (formData st) key) = false ->
  (required st key msg acc).1 !! key = Some msg
  /\ (required st key msg acc).2 = false.
Proof.
  intros Hv. unfold required. rewrite Hv. cbn. by rewrite lookup_insert_eq.
Qed.

(** A failing field whose property is missing from [formData] is caught by
    the explicit checks. *)
Lemma checkForm_records_missing k :
  formData st !! k = None -> err k ≠ "" ->
  (checkForm hostParse st).1 !! k = Some (err k)
  /\ (checkForm hostParse st).2 = false.
Proof.
  intros Hk Herr.
  assert (get (formData st) k = VUndefined) as Hget
      by (unfold get; by rewrite Hk).
  assert (truthy (get (formData st) k) = false) as Hv by (by rewrite Hget).
  pose proof (fieldError_names _ Herr) as Hname.
  unfold checkForm. cbv zeta.
  revert Hname Hv. rewrite list_elem_of_In. cbn. intros Hname Hv.
  repeat destruct Hname as [<- | Hname]; try done.
  all: split;
    [ repeat first
        [ match goal with
          | |- (required _ ?key ?msg _).1 !! ?key = _ =>
              replace (err key) with msg
                by (unfold fieldError;
                    symmetry; apply required_agrees;
                    [rewrite list_elem_of_In; cbn; tauto | exact Hv]);
              apply required_sets, Hv
          end
        | apply required_keep; [rewrite list_elem_of_In; cbn; tauto|] ]
    | repeat first
        [ match goal with
          | |- (required _ ?key _ _).2 = false =>
              apply (required_sets key), Hv
          end
        | apply required_flag ] ].
Qed.

(** The error map [isFormValid] builds, key by key. *)
Lemma checkForm_lookup (k : string) :
  (checkForm hostParse st).1 !! k =
    if String.eqb (err k) "" then None else Some (err k).
Proof.
  destruct (String.eqb_spec (err k) "") as [Hok | Hbad].
  - destruct ((checkForm hostParse st).1 !! k) as [e|] eqn:E; [|done].
    destruct (checkForm_sound _ _ E) as [-> Hne]. done.
  - destruct (formData st !! k) as [v|] eqn:Hk.
    + assert (k ≠ "hasNotes") as Hn.
      { intros ->. apply Hbad. reflexivity. }
      assert (err k = validateField hostParse st k v) as Hfe
          by (unfold fieldError, get; by rewrite Hk).
      rewrite Hfe in *. by apply checkForm_records.
    + by apply checkForm_records_missing.
Qed.

Lemma forEach_all_pass l acc :
  (forall k, err k = "") ->
  foldl (forEach_key hostParse st) acc l = acc.
Proof.
  intros Hall. revert acc. induction l as [|key l IH]; intros acc; [done|].
  cbn. rewrite <- (IH acc) at 2. f_equal.
  unfold forEach_key. fold (err key). rewrite Hall.
  by destruct (negb _).
Qed.

Lemma checkForm_flag :
  ((checkForm hostParse st).2 = true <-> forall k, err k = "")
  /\ ((checkForm hostParse st).2 = true -> (checkForm hostParse st).1 = ∅).
Proof.
  assert ((checkForm hostParse st).2 = true -> forall k, err k = "")
    as Hfwd.
  { intros Hflag k.
    destruct (String.eqb_spec (err k) "") as [Hok | Hbad]; [done|].
    destruct (formData st !! k) as [v|] eqn:Hk.
    - assert (k ≠ "hasNotes") as Hn by (intros ->; by apply Hbad).
      assert (err k = validateField hostParse st k v) as Hfe
          by (unfold fieldError, get; by rewrite Hk).
      rewrite Hfe in Hbad.
      destruct (checkForm_records _ _ _ _ Hk Hn Hbad) as [_ Hf]. congruence.
    - destruct (checkForm_records_missing _ Hk Hbad) as [_ Hf]. congruence. }
  split; [split; [exact Hfwd|]|].
  - intros Hall. unfold checkForm. cbv zeta.
    rewrite forEach_all_pass by done.
    assert (forall key msg acc, (key, msg) ∈ requiredChecks ->
              required st key msg acc = acc) as Hreq.
    { intros key msg acc Hin. unfold required.
      destruct (truthy (get (formData st) key)) eqn:Hv; [done|].
      pose proof (required_agrees hostParse st _ _ _ Hin Hv) as Hmsg.
      fold (err key) in Hmsg.
      rewrite Hall in Hmsg.
      by destruct (requiredChecks_nonempty _ _ Hin). }
    rewrite !Hreq by (rewrite list_elem_of_In; cbn; tauto). done.
  - intros Hflag. apply map_eq. intros k.
    rewrite checkForm_lookup, (Hfwd Hflag k), lookup_empty. done.
Qed.

Lemma handleSubmit_errors :
  errors (commit st (handleSubmit hostParse st)) = (checkForm hostParse st).1.
Proof.
  destruct ((checkForm hostParse st).2) eqn:E.
  - by rewrite (handleSubmit_valid _ _ E).
  - by rewrite (handleSubmit_invalid _ _ E).
Qed.

(** X4: whatever the error map held before, after [handleSubmit] it is the
    exact picture of the form: every field whose current value fails
    validation is mapped to the validator's reason, a field missing from
    the form data included, and no other key has an entry (stale entries
    and empty-string entries are gone). *)
Theorem newErrors_exact (k : string) :
  errors (commit st (handleSubmit hostParse st)) !! k =
    if String.eqb (err k) "" then None else Some (err k).
Proof. rewrite handleSubmit_errors. apply checkForm_lookup. Qed.

(** X5: [isFormValid] answers [true] exactly when the validator accepts
    the current value of every field (the seven named fields; any other
    key always passes), and then the error map it installs is empty. *)
Theorem isFormValid_iff :
  ((checkForm hostParse st).2 = true <-> forall k, err k = "")
  /\ ((checkForm hostParse st).2 = true ->
      errors (commit st (handleSubmit hostParse st)) = ∅).
Proof.
  destruct checkForm_flag as [Hiff Hempty]. split; [exact Hiff|].
  intros H. rewrite handleSubmit_errors. by apply Hempty.
Qed.

End Verdict.

(** ** The submission lifecycle *)

Section Lifecycle.
Variable hostParse : string → option Z.

(** X6: a submission that passes validation runs to completion and leaves
    the form editable. From a state that is not submitting and whose form
    is valid, the submission clears the error map and the toast and raises
    the submitting flag; when the call completes the flag is lowered, the
    toast reports success or failure, the field values are those
    submitted, and the submit button accepts a new submission. *)
Theorem submission_lifecycle st (fulfilled : bool) :
  isSubmitting st = false ->
  (checkForm hostParse st).2 = true ->
  let st1 := step hostParse st onSubmit in
  let st2 := step hostParse st1 (onSettled fulfilled) in
  (isSubmitting st1 = true /\ toast st1 = None /\ errors st1 = ∅
   /\ formData st1 = formData st)
  /\ (isSubmitting st2 = false
      /\ toast st2 = Some (if fulfilled then submittedToast else failedToast)
      /\ errors st2 = ∅ /\ formData st2 = formData st)
  /\ submit hostParse st2 = handleSubmit hostParse st2.
Proof.
  intros Hidle Hvalid st1 st2.
  destruct (checkForm_flag hostParse st) as [_ Hempty].
  specialize (Hempty Hvalid).
  assert (st1 = {| formData := formData st; errors := ∅; isSubmitting := true;
                   toast := None; isUploading := isUploading st |}) as E1.
  { subst st1. unfold step. cbn [handler]. unfold submit, submitDisabled.
    rewrite Hidle, (handleSubmit_valid _ _ Hvalid). cbn. by rewrite Hempty. }
  assert (st2 = {| formData := formData st; errors := ∅; isSubmitting := false;
                   toast := Some (if fulfilled then submittedToast
                                  else failedToast);
                   isUploading := isUploading st |}) as E2.
  { subst st2. rewrite E1. unfold step. by destruct fulfilled. }
  rewrite E1 at 1 2 3 4. rewrite E2. cbn.
  repeat split.
Qed.

(** X7: the submit capability is invoked, and the submitting flag raised,
    by nothing but a submission that finds the button enabled and the form
    valid; every such submission invokes it once. Only the completion of a
    call lowers the flag; no other event touches it. *)
Theorem api_and_flag_transitions st (ev : Event) :
  apiCalls (handler hostParse st ev)
  = match ev with
    | onSubmit =>
        if negb (isSubmitting st) && (checkForm hostParse st).2 then 1 else 0
    | _ => 0
    end
  /\ isSubmitting (step hostParse st ev)
     = match ev with
       | onSubmit => isSubmitting st || (checkForm hostParse st).2
       | onSettled _ => false
       | _ => isSubmitting st
       end.
Proof.
  unfold step.
  destruct ev as [target | target | [file|] | | | fulfilled | ]; cbn [handler].
  - unfold handleChange. by destruct (negb _).
  - done.
  - rewrite handleFileChange_cases.
    by destruct (bool_decide _); [destruct (_ <=? _)%N|].
  - done.
  - done.
  - unfold submit, submitDisabled.
    destruct (isSubmitting st) eqn:Hs; [cbn; by rewrite ?Hs|].
    destruct ((checkForm hostParse st).2) eqn:Hv.
    + rewrite (handleSubmit_valid _ _ Hv). done.
    + rewrite (handleSubmit_invalid _ _ Hv). cbn. by rewrite ?Hs.
  - by destruct fulfilled.
  - done.
Qed.

(** X9: attaching a file and removing it again is a round trip on the form
    data: if no file was attached before, the form data after the removal
    is the form data before the selection. *)
Theorem attach_then_remove st (file : File.t) :
  formData st !! "hasNotes" = Some (VBool false) ->
  formData st !! "uploadedFile" = Some VNull ->
  formData (run hostParse st [onFileChange (Some file); onRemoveFile])
  = formData st.
Proof.
  intros Hn Hu. unfold run, step. cbn [foldl handler].
  rewrite handleFileChange_cases.
  assert (forall fd : FormData,
            (forall k, k ≠ "hasNotes" -> k ≠ "uploadedFile" ->
                       fd !! k = formData st !! k) ->
            <["hasNotes" := VBool false]> (<["uploadedFile" := VNull]> fd)
            = formData st) as Hreset.
  { intros fd Hfd. apply map_eq. intros k.
    destruct (decide (k = "hasNotes")) as [-> | ?];
      [by rewrite lookup_insert_eq|].
    rewrite lookup_insert_ne by done.
    destruct (decide (k = "uploadedFile")) as [-> | ?];
      [by rewrite lookup_insert_eq|].
    rewrite lookup_insert_ne by done. by apply Hfd. }
  destruct (bool_decide _); [destruct (_ <=? _)%N|]; cbn;
    apply Hreset; intros k H1 H2; by rewrite ?lookup_insert_ne.
Qed.

End Lifecycle.

Lemma submission_lifecycle_witness :
  let st2 := run noHostParse filledForm [onSubmit; onSettled true] in
  isSubmitting st2 = false /\ toast st2 = Some submittedToast
  /\ errors st2 = ∅ /\ formData st2 = formData filledForm.
Proof.
  assert (isSubmitting filledForm = false) as Hidle by (vm_compute; reflexivity).
  assert ((checkForm noHostParse filledForm).2 = true) as Hvalid
      by (vm_compute; reflexivity).
  destruct (submission_lifecycle noHostParse filledForm true Hidle Hvalid)
    as (_ & H & _).
  exact H.
Defined.

Lemma attach_then_remove_witness :
  formData (run noHostParse filledForm
              [ onFileChange (Some (File.mk "notes.pdf" 500000));
                onRemoveFile ])
  = formData filledForm.
Proof.
  apply (attach_then_remove noHostParse filledForm
           (File.mk "notes.pdf" 500000));
    vm_compute; reflexivity.
Defined.

(** ** File names *)

Lemma toLowerCase_char_dot c :
  Ascii.eqb (toLowerCase_char c) "." = Ascii.eqb c ".".
Proof. destruct c as [[] [] [] [] [] [] [] []]; reflexivity. Qed.

Lemma toLowerCase_char_idem c :
  toLowerCase_char (toLowerCase_char c) = toLowerCase_char c.
Proof. destruct c as [[] [] [] [] [] [] [] []]; reflexivity. Qed.

Lemma toLowerCase_idem s : toLowerCase (toLowerCase s) = toLowerCase s.
Proof.
  induction s as [|c s IH]; [done|].
  cbn [toLowerCase]. by rewrite toLowerCase_char_idem, IH.
Qed.

(** Lower-casing does not move the dots. *)
Lemma split_toLowerCase s :
  split "." (toLowerCase s) = toLowerCase <$> split "." s.
Proof.
  induction s as [|c s IH]; [done|].
  cbn [toLowerCase split]. rewrite toLowerCase_char_dot, IH.
  destruct (Ascii.eqb c "."); [done|].
  by destruct (split "." s).
Qed.

Lemma includes_toLowerCase s :
  includes "." (toLowerCase s) = includes "." s.
Proof.
  induction s as [|c s IH]; [done|].
  cbn [toLowerCase includes]. by rewrite toLowerCase_char_dot, IH.
Qed.

(** A string with a separator splits at its last separator. *)
Lemma last_separator sep s :
  includes sep s = true ->
  exists pre seg, s = pre +:+ String sep seg /\ includes sep seg = false.
Proof.
  induction s as [|c s IH]; [done|].
  cbn [includes]. destruct (includes sep s) eqn:Hs.
  - intros _. destruct (IH eq_refl) as (pre & seg & -> & Hseg).
    by exists (String c pre), seg.
  - rewrite orb_false_r. intros ->%Ascii.eqb_eq. by exists EmptyString, s.
Qed.

Lemma toLowerCase_char_not_upper c :
  ~ (65 <= code (toLowerCase_char c) <= 90)%N.
Proof. destruct c as [[] [] [] [] [] [] [] []]; vm_compute; intros [H1 H2]; auto. Qed.

Lemma toLowerCase_not_upper s :
  Forall (λ c, ~ (65 <= code c <= 90)%N) (list_ascii_of_string (toLowerCase s)).
Proof.
  induction s as [|c s IH]; [constructor|].
  cbn. constructor; [apply toLowerCase_char_not_upper | exact IH].
Qed.

(** X10: the type check ignores the case of the file name. The computed
    extension never contains an upper-case letter A..Z; a file and the file
    with the lower-cased name have the same computed extension, so one is
    accepted exactly when the other is; NOTES.PDF has the extension .pdf
    and is accepted like notes.pdf. (File names over code units 0..255.) *)
Theorem extension_ignores_case (file : File.t) :
  let lower := File.mk (toLowerCase (File.name file)) (File.size file) in
  Forall (λ c, ~ (65 <= code c <= 90)%N) (list_ascii_of_string (fileExt file))
  /\ fileExt lower = fileExt file
  /\ (handleFileChange (Some lower) = acceptance lower
      <-> handleFileChange (Some file) = acceptance file)
  /\ fileExt (File.mk "NOTES.PDF" (File.size file)) = ".pdf"
  /\ handleFileChange (Some (File.mk "NOTES.PDF" 500000))
     = acceptance (File.mk "NOTES.PDF" 500000).
Proof.
  intros lower.
  assert (fileExt lower = fileExt file) as Hext.
  { unfold fileExt, lower, pop. cbn [File.name].
    rewrite split_toLowerCase, fmap_last.
    destruct (last (split "." (File.name file))); cbn; [|done].
    by rewrite toLowerCase_idem. }
  split; [|split; [done|split; [|by split]]].
  - unfold fileExt.
    destruct (pop (split "." (File.name file))) as [seg|].
    + change ("." +:+ toLowerCase seg) with (String "." (toLowerCase seg)).
      cbn [list_ascii_of_string]. constructor; [|apply toLowerCase_not_upper].
      vm_compute. intros [H1 H2]. auto.
    + vm_compute. repeat constructor; intros [H1 H2]; auto.
  - rewrite !handleFileChange_cases, Hext. cbn [File.size lower].
    destruct (bool_decide _); [destruct (_ <=? _)%N|]; done.
Qed.

(** X11: for a file whose name contains a dot, the type check passes
    exactly when the text after the last dot is, up to case, pdf, doc or
    docx. *)
Theorem dotted_name_type_check (file : File.t) :
  includes "." (File.name file) = true ->
  fileExt file ∈ allowedTypes
  <-> exists pre seg,
        File.name file = pre +:+ String "." seg
        /\ includes "." seg = false
        /\ toLowerCase seg ∈ ["pdf"; "doc"; "docx"].
Proof.
  intros Hdot.
  assert (forall x, "." +:+ x ∈ allowedTypes <-> x ∈ ["pdf"; "doc"; "docx"])
    as Hmem.
  { intros x. unfold allowedTypes. rewrite !elem_of_cons, !elem_of_nil.
    change ("." +:+ x) with (String "." x).
    split; intros H; repeat destruct H as [H | H]; try done.
    1-3: injection H as ->; auto.
    all: subst x; auto. }
  split.
  - intros Hin. destruct (last_separator _ _ Hdot) as (pre & seg & Hn & Hseg).
    exists pre, seg. repeat split; [done..|].
    rewrite (fileExt_suffix _ _ _ Hn Hseg) in Hin. by apply Hmem.
  - intros (pre & seg & Hn & Hseg & Hin).
    rewrite (fileExt_suffix _ _ _ Hn Hseg). by apply Hmem.
Qed.

Lemma dotted_name_type_check_witness :
  fileExt (File.mk "Scan.2024.PDF" 1000) ∈ allowedTypes.
Proof.
  apply (dotted_name_type_check (File.mk "Scan.2024.PDF" 1000)).
  - reflexivity.
  - exists "Scan.2024", "PDF". repeat split.
    rewrite list_elem_of_In. cbn. tauto.
Defined.

(** ** Class names *)

Lemma ToString_truthy_nonempty v : truthy v = true -> ToString v ≠ "".
Proof.
  destruct v as [s | [] | f | |]; cbn; try done.
  intros H%negb_true_iff%String.eqb_neq. done.
Qed.

Lemma concat_cons_nonempty sep x l :
  l ≠ [] -> String.concat sep (x :: l) = x +:+ sep +:+ String.concat sep l.
Proof. by destruct l. Qed.

(** X16: [cn] skips falsy arguments wherever they stand ([false], [null],
    [undefined], the empty string), and joins the others with single
    spaces: a leading class is followed by a space exactly when some later
    argument is truthy. *)
Theorem cn_skips_falsy (before after : list JsValue) (v : JsValue) :
  truthy v = false ->
  cn (before ++ v :: after) = cn (before ++ after)
  /\ (forall c, truthy c = true ->
        cn (c :: before ++ v :: after)
        = if forallb (λ x, negb (truthy x)) (before ++ after)
          then ToString c
          else ToString c +:+ " " +:+ cn (before ++ after)).
Proof.
  intros Hv.
  assert (List.filter truthy (before ++ v :: after)
          = List.filter truthy (before ++ after)) as Hf.
  { rewrite !List.filter_app. cbn. by rewrite Hv. }
  split; [unfold cn; by rewrite Hf|].
  intros c Hc. unfold cn. cbn [List.filter]. rewrite Hc, Hf.
  generalize (before ++ after)%list. intros l.
  induction l as [|x l IH]; [done|].
  cbn [List.filter forallb]. destruct (truthy x) eqn:Hx; cbn [negb andb].
  - by rewrite fmap_cons, concat_cons_nonempty.
  - exact IH.
Qed.

Lemma cn_skips_falsy_witness :
  cn [VStr "flex"; VUndefined; VStr "px-3"] = "flex px-3".
Proof.
  destruct (cn_skips_falsy [VStr "flex"] [VStr "px-3"] VUndefined eq_refl)
    as [H _].
  etrans; [exact H | reflexivity].
Defined.

(** ** The two validators *)

(** X17: the validator of [ClaimSubmissionForm.tsx] is the more permissive
    of the two: it returns the same result as the validator of
    [PriorAuthForm.tsx] for every field other than [patientId] and
    [physicianName], and whatever value the latter accepts for a field the
    former accepts too. *)
Theorem claim_form_validator_weaker (hostParse : string → option Z)
    (st : State) (name : string) (v : JsValue) :
  (name ≠ "patientId" -> name ≠ "physicianName" ->
   ClaimSubmissionForm.validateField hostParse (formData st) name v
   = validateField hostParse st name v)
  /\ (validateField hostParse st name v = "" ->
      ClaimSubmissionForm.validateField hostParse (formData st) name v = "").
Proof.
  unfold ClaimSubmissionForm.validateField, validateField.
  destruct (String.eqb_spec name "patientId") as [-> | ?].
  { split; [done|]. by destruct (negb (truthy v)). }
  destruct (String.eqb name "dob"); [done|].
  destruct (String.eqb_spec name "physicianName") as [-> | ?].
  { split; [done|]. by destruct (negb (truthy v)). }
  done.
Qed.
